(** * permessage-bzip2: negotiation parameters and the per-message codec

  A shallow embedding of [autobahn/compress_bzip2.py]: the classes
  [PerMessageBzip2Offer], [PerMessageBzip2Accept],
  [PerMessageBzip2Response] and [PerMessageBzip2], with the properties
  the specification states about them.

  Conventions of the embedding.
  - A Python object is a record; a class is a module holding the record
    and its methods.  [__init__] is written [init].
  - A [raise Exception(msg)] becomes [Err k], where the kind [k] is the
    specification's name for the message template (see [error]).
  - A parameter mapping (a Python 2 [dict] from names to lists of
    values) is an association list in the order in which [for p in
    params] visits the keys: both parsers stop at the first parameter
    that is not acceptable, so the order decides which error is seen. *)

From Stdlib Require Import ZArith String Ascii List Bool Lia Permutation.
From Stdlib Require Import DecimalString.
From Stdlib Require DecimalPos DecimalZ.
Import ListNotations.
Open Scope string_scope.
Open Scope Z_scope.

(** ** Python values and exceptions *)

(** The values that occur in a parameter mapping: the sentinel [True]
  for a parameter given without [=value], and strings.  Integers are
  kept because [==] relates them to booleans. *)
Inductive pyval : Type :=
| VBool (b : bool)
| VInt (n : Z)
| VStr (s : string).

Definition Z_of_bool (b : bool) : Z := if b then 1 else 0.

(** Python's [==] on these values: booleans are the integers 0 and 1, a
  string is equal to strings only. *)
Definition py_eq (v w : pyval) : bool :=
  match v, w with
  | VStr s, VStr t => String.eqb s t
  | VStr _, _ | _, VStr _ => false
  | VBool a, VBool b => Bool.eqb a b
  | VBool a, VInt n | VInt n, VBool a => Z.eqb (Z_of_bool a) n
  | VInt n, VInt m => Z.eqb n m
  end.

Definition py_ne (v w : pyval) : bool := negb (py_eq v w).

(** [v in l] *)
Definition py_in (v : pyval) (l : list pyval) : bool :=
  existsb (fun w => py_eq v w) l.

(** The exceptions the module can raise.  The source raises the bare
  [Exception] with a message; the kinds are the message templates:
  - "multiple occurence of extension parameter '%s' ..."  [DuplicateParameterError p]
  - "illegal extension parameter value '%s' for parameter '%s' ..."
                                                 [InvalidParameterValueError val p]
  - "illegal extension parameter '%s' ..."       [UnknownParameterError p]
  - "invalid value %s ... - feature unsupported by client"
                                                 [UnsupportedFeatureError]
  - "invalid type ..." and "invalid value %s ... - permissible values %s"
                                                 [ConstructionError]
  [IndexError], [AttributeError] and [ValueError] are the interpreter's
  and the library's own: indexing an empty list, a method call on
  [None], and [int] of a string that is no numeral or a level the codec
  library refuses.  [CodecError] is the library's error on corrupt
  data. *)
Inductive error : Type :=
| DuplicateParameterError (p : string)
| InvalidParameterValueError (val : pyval) (p : string)
| UnknownParameterError (p : string)
| UnsupportedFeatureError
| ConstructionError
| IndexError
| ValueError
| AttributeError
| CodecError.

Inductive result (A : Type) : Type :=
| Ok (a : A)
| Err (e : error).
Arguments Ok {A} a.
Arguments Err {A} e.

Definition bind {A B : Type} (r : result A) (k : A -> result B) : result B :=
  match r with
  | Ok a => k a
  | Err e => Err e
  end.

Notation "x <- r ;; k" := (bind r (fun x => k))
  (at level 61, r at next level, right associativity).

(** ** Integers and text *)

(** ["%d" % n] *)
Definition format_d (n : Z) : string := NilZero.string_of_int (Z.to_int n).

(** [int(s)] for a string; the parsers call it on one of ["1"] .. ["9"]
  only, where it is the numeral's value. *)
Definition py_int_of_string (s : string) : result Z :=
  match NilZero.int_of_string s with
  | Some d => Ok (Z.of_int d)
  | None => Err ValueError
  end.

Definition py_int (v : pyval) : result Z :=
  match v with
  | VBool b => Ok (Z_of_bool b)
  | VInt n => Ok n
  | VStr s => py_int_of_string s
  end.

(** ["%s" % b] for a boolean *)
Definition format_s_bool (b : bool) : string := if b then "True" else "False".

(** The characters of a numeral written by ["%d"] or ["%s"]. *)
Definition is_numeral_char (c : ascii) : bool :=
  existsb (Ascii.eqb c) (list_ascii_of_string "-0123456789").

(** A parameter mapping, in iteration order. *)
Definition params_t : Type := list (string * list pyval).

(** ** [PerMessageBzip2Mixin] *)

Module PerMessageBzip2Mixin.

Definition EXTENSION_NAME : string := "permessage-bzip2".

Definition COMPRESS_LEVEL_PERMISSIBLE_VALUES : list Z :=
  [1; 2; 3; 4; 5; 6; 7; 8; 9].

(** The literal list both parsers test a level value against. *)
Definition LEVEL_LITERALS : list pyval :=
  [VStr "1"; VStr "2"; VStr "3"; VStr "4"; VStr "5";
   VStr "6"; VStr "7"; VStr "8"; VStr "9"].

(** [n in COMPRESS_LEVEL_PERMISSIBLE_VALUES] *)
Definition permissible (n : Z) : bool :=
  existsb (Z.eqb n) COMPRESS_LEVEL_PERMISSIBLE_VALUES.

End PerMessageBzip2Mixin.
Import PerMessageBzip2Mixin.

(** ** [PerMessageBzip2Offer] *)

Module PerMessageBzip2Offer.

Record t : Type := mk {
  acceptMaxCompressLevel : bool;
  requestMaxCompressLevel : Z
}.

(** [__init__(self, acceptMaxCompressLevel, requestMaxCompressLevel)] *)
Definition init (acceptMaxCompressLevel : pyval)
                (requestMaxCompressLevel : Z) : result t :=
  match acceptMaxCompressLevel with
  | VBool a =>
      if negb (requestMaxCompressLevel =? 0)
         && negb (permissible requestMaxCompressLevel)
      then Err ConstructionError
      else Ok (mk a requestMaxCompressLevel)
  | _ => Err ConstructionError
  end.

(** The body of [for p in params] in [parse], with the two locals
    [acceptMaxCompressLevel] and [requestMaxCompressLevel] threaded
    through the iterations. *)
Fixpoint parse_loop (params : params_t)
         (acceptMaxCompressLevel : bool) (requestMaxCompressLevel : Z)
  : result (bool * Z) :=
  match params with
  | [] => Ok (acceptMaxCompressLevel, requestMaxCompressLevel)
  | (p, vals) :: rest =>
      if (1 <? length vals)%nat then Err (DuplicateParameterError p)
      else
        match vals with
        | [] => Err IndexError
        | val :: _ =>
            if String.eqb p "c2s_max_compress_level" then
              if py_ne val (VBool true)
              then Err (InvalidParameterValueError val p)
              else parse_loop rest true requestMaxCompressLevel
            else if String.eqb p "s2c_max_compress_level" then
              if negb (py_in val LEVEL_LITERALS)
              then Err (InvalidParameterValueError val p)
              else n <- py_int val ;;
                   parse_loop rest acceptMaxCompressLevel n
            else Err (UnknownParameterError p)
        end
  end.

(** [parse(Klass, params)] *)
Definition parse (params : params_t) : result t :=
  st <- parse_loop params false 0 ;;
  init (VBool (fst st)) (snd st).

(** [getExtensionString(self)] *)
Definition getExtensionString (self : t) : string :=
  let pmceString := EXTENSION_NAME in
  let pmceString :=
    if acceptMaxCompressLevel self
    then pmceString ++ "; c2s_max_compress_level"
    else pmceString in
  let pmceString :=
    if negb (requestMaxCompressLevel self =? 0)
    then pmceString ++ "; s2c_max_compress_level="
                    ++ format_d (requestMaxCompressLevel self)
    else pmceString in
  pmceString.

(** [__repr__(self)] *)
Definition __repr__ (self : t) : string :=
  "PerMessageBzip2Offer(acceptMaxCompressLevel = "
    ++ format_s_bool (acceptMaxCompressLevel self)
    ++ ", requestMaxCompressLevel = "
    ++ format_d (requestMaxCompressLevel self) ++ ")".

End PerMessageBzip2Offer.


(** ** [PerMessageBzip2Accept] *)

Module PerMessageBzip2Accept.

Record t : Type := mk {
  offer : PerMessageBzip2Offer.t;
  requestMaxCompressLevel : Z
}.

(** [__init__(self, offer, requestMaxCompressLevel)].  The argument
    [offer] is typed, so the [isinstance] test of the source holds. *)
Definition init (offer : PerMessageBzip2Offer.t)
                (requestMaxCompressLevel : Z) : result t :=
  if negb (requestMaxCompressLevel =? 0)
     && negb (permissible requestMaxCompressLevel)
  then Err ConstructionError
  else if negb (requestMaxCompressLevel =? 0)
          && negb (PerMessageBzip2Offer.acceptMaxCompressLevel offer)
  then Err UnsupportedFeatureError
  else Ok (mk offer requestMaxCompressLevel).

(** [getExtensionString(self)] *)
Definition getExtensionString (self : t) : string :=
  let pmceString := EXTENSION_NAME in
  let pmceString :=
    if negb (PerMessageBzip2Offer.requestMaxCompressLevel (offer self) =? 0)
    then pmceString ++ "; s2c_max_compress_level="
           ++ format_d (PerMessageBzip2Offer.requestMaxCompressLevel (offer self))
    else pmceString in
  let pmceString :=
    if negb (requestMaxCompressLevel self =? 0)
    then pmceString ++ "; c2s_max_compress_level="
           ++ format_d (requestMaxCompressLevel self)
    else pmceString in
  pmceString.

(** [__repr__(self)] *)
Definition __repr__ (self : t) : string :=
  "PerMessageBzip2Accept(offer = "
    ++ PerMessageBzip2Offer.__repr__ (offer self)
    ++ ", requestMaxCompressLevel = "
    ++ format_d (requestMaxCompressLevel self) ++ ")".

End PerMessageBzip2Accept.

(** ** [PerMessageBzip2Response] *)

Module PerMessageBzip2Response.

Record t : Type := mk {
  c2s_max_compress_level : Z;
  s2c_max_compress_level : Z
}.

(** [__init__(self, c2s_max_compress_level, s2c_max_compress_level)]:
    two assignments, nothing is tested. *)
Definition init (c2s_max_compress_level s2c_max_compress_level : Z) : result t :=
  Ok (mk c2s_max_compress_level s2c_max_compress_level).

(** The body of [for p in params] in [parse]. *)
Fixpoint parse_loop (params : params_t)
         (c2s_max_compress_level s2c_max_compress_level : Z)
  : result (Z * Z) :=
  match params with
  | [] => Ok (c2s_max_compress_level, s2c_max_compress_level)
  | (p, vals) :: rest =>
      if (1 <? length vals)%nat then Err (DuplicateParameterError p)
      else
        match vals with
        | [] => Err IndexError
        | val :: _ =>
            if String.eqb p "c2s_max_compress_level" then
              if negb (py_in val LEVEL_LITERALS)
              then Err (InvalidParameterValueError val p)
              else n <- py_int val ;;
                   parse_loop rest n s2c_max_compress_level
            else if String.eqb p "s2c_max_compress_level" then
              if negb (py_in val LEVEL_LITERALS)
              then Err (InvalidParameterValueError val p)
              else n <- py_int val ;;
                   parse_loop rest c2s_max_compress_level n
            else Err (UnknownParameterError p)
        end
  end.

(** [parse(Klass, params)] *)
Definition parse (params : params_t) : result t :=
  st <- parse_loop params 0 0 ;;
  init (fst st) (snd st).

End PerMessageBzip2Response.

(** ** The [bz2] library

    [bz2.BZ2Compressor] and [bz2.BZ2Decompressor] are not part of the
    module; the processor is written over their interface.  A codec
    object is mutated by its methods, so a method returns the object's
    new state next to its outcome. *)

Definition bytes : Type := list Byte.byte.

Record Bz2 : Type := {
  Compressor : Type;
  Decompressor : Type;
  (** [bz2.BZ2Compressor(compresslevel)] *)
  BZ2Compressor : Z -> result Compressor;
  (** [c.compress(data)] *)
  compress : Compressor -> bytes -> result bytes * Compressor;
  (** [c.flush()] *)
  flush : Compressor -> result bytes * Compressor;
  (** [bz2.BZ2Decompressor()] *)
  BZ2Decompressor : Decompressor;
  (** [d.decompress(data)] *)
  decompress : Decompressor -> bytes -> result bytes * Decompressor
}.

(** ** [PerMessageBzip2] *)

Module PerMessageBzip2.

Definition DEFAULT_COMPRESS_LEVEL : Z := 9.

Section WithCodec.

Variable bz2 : Bz2.

Record t : Type := mk {
  _isServer : bool;
  _compressor : option (Compressor bz2);
  _decompressor : option (Decompressor bz2);
  s2c_max_compress_level : Z;
  c2s_max_compress_level : Z
}.

(** [self._compressor = c] and [self._decompressor = d] *)
Definition set_compressor (c : option (Compressor bz2)) (self : t) : t :=
  mk (_isServer self) c (_decompressor self)
     (s2c_max_compress_level self) (c2s_max_compress_level self).

Definition set_decompressor (d : option (Decompressor bz2)) (self : t) : t :=
  mk (_isServer self) (_compressor self) d
     (s2c_max_compress_level self) (c2s_max_compress_level self).

(** [__init__(self, isServer, s2c_max_compress_level, c2s_max_compress_level)] *)
Definition init (isServer : bool)
                (s2c_max_compress_level c2s_max_compress_level : Z) : t :=
  mk isServer None None
     (if negb (s2c_max_compress_level =? 0)
      then s2c_max_compress_level else DEFAULT_COMPRESS_LEVEL)
     (if negb (c2s_max_compress_level =? 0)
      then c2s_max_compress_level else DEFAULT_COMPRESS_LEVEL).

(** [createFromResponse(Klass, isServer, response)] *)
Definition createFromResponse (isServer : bool)
                              (response : PerMessageBzip2Response.t) : t :=
  init isServer
       (PerMessageBzip2Response.s2c_max_compress_level response)
       (PerMessageBzip2Response.c2s_max_compress_level response).

(** [createFromAccept(Klass, isServer, accept)] *)
Definition createFromAccept (isServer : bool)
                            (accept : PerMessageBzip2Accept.t) : t :=
  init isServer
       (PerMessageBzip2Offer.requestMaxCompressLevel
          (PerMessageBzip2Accept.offer accept))
       (PerMessageBzip2Accept.requestMaxCompressLevel accept).

(** A method is a function from the processor to its outcome and the
    processor afterwards; when the method raises, the processor is in
    the state reached at the [raise]. *)
Definition method (A : Type) : Type := t -> result A * t.

(** [startCompressMessage(self)] *)
Definition startCompressMessage : method unit := fun self =>
  if _isServer self then
    match _compressor self with
    | None =>
        match BZ2Compressor bz2 (s2c_max_compress_level self) with
        | Ok c => (Ok tt, set_compressor (Some c) self)
        | Err e => (Err e, self)
        end
    | Some _ => (Ok tt, self)
    end
  else
    match _compressor self with
    | None =>
        match BZ2Compressor bz2 (c2s_max_compress_level self) with
        | Ok c => (Ok tt, set_compressor (Some c) self)
        | Err e => (Err e, self)
        end
    | Some _ => (Ok tt, self)
    end.

(** [compressMessageData(self, data)] *)
Definition compressMessageData (data : bytes) : method bytes := fun self =>
  match _compressor self with
  | None => (Err AttributeError, self)
  | Some c =>
      let (r, c') := compress bz2 c data in
      (r, set_compressor (Some c') self)
  end.

(** [endCompressMessage(self)] *)
Definition endCompressMessage : method bytes := fun self =>
  match _compressor self with
  | None => (Err AttributeError, self)
  | Some c =>
      match flush bz2 c with
      | (Ok data, _) => (Ok data, set_compressor None self)
      | (Err e, c') => (Err e, set_compressor (Some c') self)
      end
  end.

(** [startDecompressMessage(self)] *)
Definition startDecompressMessage : method unit := fun self =>
  match _decompressor self with
  | None => (Ok tt, set_decompressor (Some (BZ2Decompressor bz2)) self)
  | Some _ => (Ok tt, self)
  end.

(** [decompressMessageData(self, data)] *)
Definition decompressMessageData (data : bytes) : method bytes := fun self =>
  match _decompressor self with
  | None => (Err AttributeError, self)
  | Some d =>
      let (r, d') := decompress bz2 d data in
      (r, set_decompressor (Some d') self)
  end.

(** [endDecompressMessage(self)] *)
Definition endDecompressMessage : method unit := fun self =>
  (Ok tt, set_decompressor None self).

(** [__repr__(self)] *)
Definition __repr__ (self : t) : string :=
  "PerMessageBzip2(isServer = " ++ format_s_bool (_isServer self)
    ++ ", s2c_max_compress_level = " ++ format_d (s2c_max_compress_level self)
    ++ ", c2s_max_compress_level = " ++ format_d (c2s_max_compress_level self)
    ++ ")".

End WithCodec.

Arguments mk {bz2}.
Arguments _isServer {bz2}.
Arguments _compressor {bz2}.
Arguments _decompressor {bz2}.
Arguments s2c_max_compress_level {bz2}.
Arguments c2s_max_compress_level {bz2}.
Arguments set_compressor {bz2}.
Arguments set_decompressor {bz2}.
Arguments startCompressMessage {bz2}.
Arguments compressMessageData {bz2}.
Arguments endCompressMessage {bz2}.
Arguments startDecompressMessage {bz2}.
Arguments decompressMessageData {bz2}.
Arguments endDecompressMessage {bz2}.
Arguments __repr__ {bz2}.

End PerMessageBzip2.

(** ** From the extension string to a parameter mapping

    [parse] receives the output of
    [WebSocketProtocol._parseExtensionsHeader], which belongs to the
    protocol module and not to this one. *)

(** Modelled from the spec: part of the missing header parser, the
    split of a header line at a one-character separator
    ([s.split(sep)]). *)
Fixpoint split_on (sep : ascii) (s : string) : list string :=
  match s with
  | EmptyString => [EmptyString]
  | String c r =>
      if Ascii.eqb c sep then EmptyString :: split_on sep r
      else match split_on sep r with
           | [] => [String c EmptyString]
           | w :: ws => String c w :: ws
           end
  end.

Definition is_space (c : ascii) : bool :=
  let n := nat_of_ascii c in
  (Nat.eqb n 32 || (Nat.leb 9 n && Nat.leb n 13))%bool.

Fixpoint lstrip (s : string) : string :=
  match s with
  | EmptyString => EmptyString
  | String c r => if is_space c then lstrip r else s
  end.

Fixpoint rstrip (s : string) : string :=
  match s with
  | EmptyString => EmptyString
  | String c r =>
      match rstrip r with
      | EmptyString => if is_space c then EmptyString else String c EmptyString
      | r' => String c r'
      end
  end.

(** Modelled from the spec: part of the missing header parser, the
    removal of the blanks around a token ([s.strip()]). *)
Definition strip (s : string) : string := rstrip (lstrip s).

(** Modelled from the spec: part of the missing header parser, the
    text before the first [sep] and the text after it when there is
    one. *)
Fixpoint cut_at (sep : ascii) (s : string) : string * option string :=
  match s with
  | EmptyString => (EmptyString, None)
  | String c r =>
      if Ascii.eqb c sep then (EmptyString, Some r)
      else let (k, v) := cut_at sep r in (String c k, v)
  end.

(** Modelled from the spec: part of the missing header parser, the
    collapse of the occurrences of a name into one sequence
    ([params[key].append(value)], with a new list on the first occurrence
    of [key]). *)
Fixpoint add_param (key : string) (value : pyval) (params : params_t) : params_t :=
  match params with
  | [] => [(key, [value])]
  | (k, vs) :: rest =>
      if String.eqb k key then (k, (vs ++ [value])%list) :: rest
      else (k, vs) :: add_param key value rest
  end.

(** Modelled from the spec: the header parser
    [_parseExtensionsHeader] is missing from the sources.  By sections 1,
    4.1 and 6 of the specification it splits one extension of a header
    line at [;] into the extension name and [param[=value]] tokens, and
    maps each parameter name to the sequence of its values: the string
    after [=], or the boolean-true sentinel for a token without [=];
    several occurrences of a name collapse into one sequence. *)
Definition parseExtension (header : string) : string * params_t :=
  match map strip (split_on ";" header) with
  | [] => (EmptyString, [])
  | name :: tokens =>
      (name,
       fold_left
         (fun params token =>
            match cut_at "=" token with
            | (key, Some value) => add_param (strip key) (VStr (strip value)) params
            | (key, None) => add_param (strip key) (VBool true) params
            end)
         tokens [])
  end.

(** ** A stand-in for the library

    The stored codec: a compressor keeps the chunks it is fed and emits
    them when flushed, a decompressor hands its input through.  Like the
    library it refuses a level outside 1..9 and a second use of a flushed
    compressor.  It serves to run the processor on concrete inputs. *)

Module Stored.

Record compressor : Type := mkc {
  level : Z;
  pending : bytes;
  running : bool
}.

Definition new (l : Z) : result compressor :=
  if (1 <=? l) && (l <=? 9) then Ok (mkc l [] true) else Err ValueError.

Definition feed (c : compressor) (data : bytes) : result bytes * compressor :=
  if running c then (Ok [], mkc (level c) (pending c ++ data)%list true)
  else (Err ValueError, c).

Definition finish (c : compressor) : result bytes * compressor :=
  if running c then (Ok (pending c), mkc (level c) [] false)
  else (Err ValueError, c).

Definition pass (d : unit) (data : bytes) : result bytes * unit := (Ok data, d).

Definition bz2 : Bz2 :=
  {| Compressor := compressor;
     Decompressor := unit;
     BZ2Compressor := new;
     compress := feed;
     flush := finish;
     BZ2Decompressor := tt;
     decompress := pass |}.

End Stored.

(** ** Acceptable parameters

    The parameters under which an iteration of a parser's loop reaches
    its end: a known name with exactly one value, which that name
    admits. *)

Definition overlong (e : string * list pyval) : bool :=
  (1 <? length (snd e))%nat.

Definition offer_param_ok (e : string * list pyval) : bool :=
  match e with
  | (p, [val]) =>
      ((String.eqb p "c2s_max_compress_level" && py_eq val (VBool true))
       || (String.eqb p "s2c_max_compress_level" && py_in val LEVEL_LITERALS))%bool
  | _ => false
  end.

Definition response_param_ok (e : string * list pyval) : bool :=
  match e with
  | (p, [val]) =>
      ((String.eqb p "c2s_max_compress_level" || String.eqb p "s2c_max_compress_level")
       && py_in val LEVEL_LITERALS)%bool
  | _ => false
  end.

(** ** The Accept's extension string, in the specification's words

    The extension name; then, if the offer's requested level is not 0,
    the token [; s2c_max_compress_level=<n>] with that level; then, if
    the Accept's own requested level is not 0, the token
    [; c2s_max_compress_level=<m>] with it. *)

Definition level_token (key : string) (n : Z) : string :=
  "; " ++ key ++ "=" ++ format_d n.

Definition accept_extension_tokens (offer_level own_level : Z) : list string :=
  ((if offer_level =? 0 then [] else [level_token "s2c_max_compress_level" offer_level])
   ++ (if own_level =? 0 then [] else [level_token "c2s_max_compress_level" own_level]))%list.

Definition accept_extension_string (offer_level own_level : Z) : string :=
  String.concat "" (EXTENSION_NAME :: accept_extension_tokens offer_level own_level).

(** ** What a method leaves alone besides the two codec fields *)

Definition same_config {bz2 : Bz2} (self self' : PerMessageBzip2.t bz2) : Prop :=
  PerMessageBzip2._isServer self' = PerMessageBzip2._isServer self /\
  PerMessageBzip2.s2c_max_compress_level self'
  = PerMessageBzip2.s2c_max_compress_level self /\
  PerMessageBzip2.c2s_max_compress_level self'
  = PerMessageBzip2.c2s_max_compress_level self.

(** * Properties *)

(** ** Running the definitions *)

Example format_d_examples :
  format_d 0 = "0" /\ format_d 7 = "7" /\ format_d 10 = "10" /\ format_d (-3) = "-3".
Proof. repeat split. Qed.

Example py_int_examples :
  py_int_of_string "7" = Ok 7 /\ py_int_of_string "" = Err ValueError.
Proof. split; reflexivity. Qed.

Example offer_string_example :
  PerMessageBzip2Offer.getExtensionString (PerMessageBzip2Offer.mk true 5)
  = "permessage-bzip2; c2s_max_compress_level; s2c_max_compress_level=5".
Proof. reflexivity. Qed.

Example parseExtension_example :
  parseExtension "permessage-bzip2; c2s_max_compress_level; s2c_max_compress_level=5"
  = ("permessage-bzip2",
     [("c2s_max_compress_level", [VBool true]);
      ("s2c_max_compress_level", [VStr "5"])]).
Proof. reflexivity. Qed.

Example parseExtension_collapses :
  parseExtension "x; a=1; b; a = 2 "
  = ("x", [("a", [VStr "1"; VStr "2"]); ("b", [VBool true])]).
Proof. reflexivity. Qed.

Example offer_parse_example :
  PerMessageBzip2Offer.parse
    [("c2s_max_compress_level", [VBool true]); ("s2c_max_compress_level", [VStr "5"])]
  = Ok (PerMessageBzip2Offer.mk true 5).
Proof. reflexivity. Qed.

(** ** Level values *)

(** The nine literals are the numerals of 1..9. *)
Lemma level_literal_iff (s : string) :
  py_in (VStr s) LEVEL_LITERALS = true <-> exists n, 1 <= n <= 9 /\ s = format_d n.
Proof.
  unfold py_in, LEVEL_LITERALS; cbn [existsb py_eq]. split.
  - rewrite !orb_true_iff, !String.eqb_eq.
    intros [H|[H|[H|[H|[H|[H|[H|[H|[H|H]]]]]]]]]; try discriminate; subst s;
      [exists 1|exists 2|exists 3|exists 4|exists 5|exists 6|exists 7|exists 8|exists 9];
      (split; [lia|reflexivity]).
  - intros [n [Hn ->]].
    assert (n = 1 \/ n = 2 \/ n = 3 \/ n = 4 \/ n = 5 \/ n = 6 \/ n = 7 \/ n = 8 \/ n = 9)
      as Hc by lia.
    repeat (destruct Hc as [->|Hc]; [reflexivity|]). subst n; reflexivity.
Qed.

(** [int] gives a numeral of 1..9 its value. *)
Lemma py_int_format_d (n : Z) : 1 <= n <= 9 -> py_int (VStr (format_d n)) = Ok n.
Proof.
  intros Hn.
  assert (n = 1 \/ n = 2 \/ n = 3 \/ n = 4 \/ n = 5 \/ n = 6 \/ n = 7 \/ n = 8 \/ n = 9)
    as Hc by lia.
  repeat (destruct Hc as [->|Hc]; [reflexivity|]). subst n; reflexivity.
Qed.

(** Only strings pass the membership test, and [int] succeeds on each
    value that passes it. *)
Lemma level_literal_value (val : pyval) :
  py_in val LEVEL_LITERALS = true ->
  exists n, 1 <= n <= 9 /\ val = VStr (format_d n) /\ py_int val = Ok n.
Proof.
  destruct val as [b|z|s]; try discriminate.
  intros H; apply level_literal_iff in H; destruct H as [n [Hn ->]].
  exists n; repeat split; try lia. now apply py_int_format_d.
Qed.

Lemma not_level_literal (s : string) :
  (forall n, 1 <= n <= 9 -> s <> format_d n) ->
  py_in (VStr s) LEVEL_LITERALS = false.
Proof.
  intros H. destruct (py_in (VStr s) LEVEL_LITERALS) eqn:E; [|reflexivity].
  apply level_literal_iff in E; destruct E as [n [Hn E]]. now elim (H n).
Qed.

Lemma permissible_iff (n : Z) : permissible n = true <-> 1 <= n <= 9.
Proof.
  unfold permissible, COMPRESS_LEVEL_PERMISSIBLE_VALUES; cbn [existsb].
  rewrite !orb_true_iff, !Z.eqb_eq. split; [intros H | intros H]; [|lia].
  intuition (try discriminate; lia).
Qed.

(** ** Offer: serialise, then parse *)

Ltac level_cases r H :=
  let Hc := fresh "Hc" in
  assert (r = 0 \/ r = 1 \/ r = 2 \/ r = 3 \/ r = 4 \/ r = 5 \/ r = 6 \/ r = 7
          \/ r = 8 \/ r = 9) as Hc by lia;
  clear H;
  repeat (destruct Hc as [Hc|Hc]; [subst r|]); [..|subst r].

(** A mapping of at most two parameters has at most two iteration
    orders. *)
Ltac iteration_orders H :=
  first
    [ apply Permutation_nil in H; subst
    | apply Permutation_length_1_inv in H; subst
    | apply Permutation_length_2_inv in H; destruct H; subst ].

(** C1: an Offer with [acceptMaxCompressLevel] true or false and
    [requestMaxCompressLevel] 0 or in 1..9 is constructible, its extension
    string names the extension, and [parse], applied to the parameter
    mapping of that string in whichever order the mapping is iterated,
    returns an Offer with the same two fields.  With
    [acceptMaxCompressLevel] false no flag token is written and [parse]
    starts from false, so the round trip holds there too. *)
Theorem offer_serialize_parse_roundtrip :
  forall (a : bool) (r : Z),
    r = 0 \/ 1 <= r <= 9 ->
    let o := PerMessageBzip2Offer.mk a r in
    let header := PerMessageBzip2Offer.getExtensionString o in
    PerMessageBzip2Offer.init (VBool a) r = Ok o /\
    fst (parseExtension header) = EXTENSION_NAME /\
    forall params : params_t,
      Permutation (snd (parseExtension header)) params ->
      PerMessageBzip2Offer.parse params = Ok o.
Proof.
  intros a r Hr o header; subst o header.
  destruct a; level_cases r Hr;
    (split; [reflexivity | split; [reflexivity|]]);
    intros params Hp; vm_compute in Hp; iteration_orders Hp; reflexivity.
Qed.

Lemma offer_serialize_parse_roundtrip_witness :
  PerMessageBzip2Offer.parse
    [("s2c_max_compress_level", [VStr "7"]); ("c2s_max_compress_level", [VBool true])]
  = Ok (PerMessageBzip2Offer.mk true 7).
Proof.
  apply (offer_serialize_parse_roundtrip true 7); [right; lia|].
  vm_compute. apply perm_swap.
Defined.

(** ** Behind acceptable parameters *)

Lemma offer_loop_ok (e : string * list pyval) :
  offer_param_ok e = true ->
  forall a r, exists a' r', forall rest,
    PerMessageBzip2Offer.parse_loop (e :: rest) a r
    = PerMessageBzip2Offer.parse_loop rest a' r'.
Proof.
  destruct e as [p [|val [|? ?]]]; try discriminate.
  cbn [offer_param_ok]. intros H a r.
  cbn [PerMessageBzip2Offer.parse_loop length Nat.ltb Nat.leb].
  destruct (String.eqb p "c2s_max_compress_level") eqn:E1.
  - apply String.eqb_eq in E1; subst p.
    change ("c2s_max_compress_level" =? "s2c_max_compress_level")%string
      with false in H.
    rewrite andb_false_l, orb_false_r, andb_true_l in H.
    unfold py_ne; rewrite H. now exists true, r.
  - rewrite andb_false_l, orb_false_l in H. apply andb_true_iff in H as [-> H].
    rewrite H. destruct (level_literal_value val H) as [n [_ [_ ->]]].
    now exists a, n.
Qed.

Lemma response_loop_ok (e : string * list pyval) :
  response_param_ok e = true ->
  forall c s, exists c' s', forall rest,
    PerMessageBzip2Response.parse_loop (e :: rest) c s
    = PerMessageBzip2Response.parse_loop rest c' s'.
Proof.
  destruct e as [p [|val [|? ?]]]; try discriminate.
  cbn [response_param_ok]. intros H c s.
  apply andb_true_iff in H as [Hp H].
  cbn [PerMessageBzip2Response.parse_loop length Nat.ltb Nat.leb].
  rewrite H. destruct (level_literal_value val H) as [n [_ [_ ->]]].
  destruct (String.eqb p "c2s_max_compress_level") eqn:E1.
  - now exists n, s.
  - rewrite orb_false_l in Hp; rewrite Hp. now exists c, n.
Qed.

Lemma offer_loop_prefix (pre : params_t) :
  Forall (fun e => offer_param_ok e = true) pre ->
  forall a r, exists a' r', forall rest,
    PerMessageBzip2Offer.parse_loop (pre ++ rest)%list a r
    = PerMessageBzip2Offer.parse_loop rest a' r'.
Proof.
  induction 1 as [|e pre He _ IH]; intros a r.
  - now exists a, r.
  - destruct (offer_loop_ok e He a r) as [a1 [r1 H1]].
    destruct (IH a1 r1) as [a2 [r2 H2]].
    exists a2, r2; intros rest.
    now rewrite <- app_comm_cons, H1, H2.
Qed.

Lemma response_loop_prefix (pre : params_t) :
  Forall (fun e => response_param_ok e = true) pre ->
  forall c s, exists c' s', forall rest,
    PerMessageBzip2Response.parse_loop (pre ++ rest)%list c s
    = PerMessageBzip2Response.parse_loop rest c' s'.
Proof.
  induction 1 as [|e pre He _ IH]; intros c s.
  - now exists c, s.
  - destruct (response_loop_ok e He c s) as [c1 [s1 H1]].
    destruct (IH c1 s1) as [c2 [s2 H2]].
    exists c2, s2; intros rest.
    now rewrite <- app_comm_cons, H1, H2.
Qed.

(** ** Leveled parameters *)

(** C2: for each leveled parameter ([s2c_max_compress_level] of an
    offer, [c2s_max_compress_level] and [s2c_max_compress_level] of a
    response) and every string [s] given as its single value, wherever
    the parameter stands in the iteration.  When [s] is the numeral of an
    [n] in 1..9 the loop, in whatever state it is, goes on with [n]
    stored in the parameter's variable, and the mapping with this
    parameter alone parses to the object holding [n].  When [s] is no
    such numeral (["0"], ["10"], the empty string, ["abc"], ...) the loop,
    in whatever state it is, stops with [InvalidParameterValueError] for
    this value and name, and so does the parse of every mapping in which
    the parameter is iterated behind acceptable parameters, whatever
    follows it. *)
Theorem level_parameter_parse :
  forall (s : string),
    (forall n, 1 <= n <= 9 -> s = format_d n ->
       (forall rest a r,
          PerMessageBzip2Offer.parse_loop
            (("s2c_max_compress_level", [VStr s]) :: rest) a r
          = PerMessageBzip2Offer.parse_loop rest a n) /\
       (forall rest c2s s2c,
          PerMessageBzip2Response.parse_loop
            (("c2s_max_compress_level", [VStr s]) :: rest) c2s s2c
          = PerMessageBzip2Response.parse_loop rest n s2c) /\
       (forall rest c2s s2c,
          PerMessageBzip2Response.parse_loop
            (("s2c_max_compress_level", [VStr s]) :: rest) c2s s2c
          = PerMessageBzip2Response.parse_loop rest c2s n) /\
       PerMessageBzip2Offer.parse [("s2c_max_compress_level", [VStr s])]
       = Ok (PerMessageBzip2Offer.mk false n) /\
       PerMessageBzip2Response.parse [("c2s_max_compress_level", [VStr s])]
       = Ok (PerMessageBzip2Response.mk n 0) /\
       PerMessageBzip2Response.parse [("s2c_max_compress_level", [VStr s])]
       = Ok (PerMessageBzip2Response.mk 0 n)) /\
    ((forall n, 1 <= n <= 9 -> s <> format_d n) ->
       (forall rest a r,
          PerMessageBzip2Offer.parse_loop
            (("s2c_max_compress_level", [VStr s]) :: rest) a r
          = Err (InvalidParameterValueError (VStr s) "s2c_max_compress_level")) /\
       (forall rest c2s s2c,
          PerMessageBzip2Response.parse_loop
            (("c2s_max_compress_level", [VStr s]) :: rest) c2s s2c
          = Err (InvalidParameterValueError (VStr s) "c2s_max_compress_level")) /\
       (forall rest c2s s2c,
          PerMessageBzip2Response.parse_loop
            (("s2c_max_compress_level", [VStr s]) :: rest) c2s s2c
          = Err (InvalidParameterValueError (VStr s) "s2c_max_compress_level")) /\
       (forall pre post,
          forallb offer_param_ok pre = true ->
          PerMessageBzip2Offer.parse
            (pre ++ ("s2c_max_compress_level", [VStr s]) :: post)%list
          = Err (InvalidParameterValueError (VStr s) "s2c_max_compress_level")) /\
       (forall pre post,
          forallb response_param_ok pre = true ->
          PerMessageBzip2Response.parse
            (pre ++ ("c2s_max_compress_level", [VStr s]) :: post)%list
          = Err (InvalidParameterValueError (VStr s) "c2s_max_compress_level") /\
          PerMessageBzip2Response.parse
            (pre ++ ("s2c_max_compress_level", [VStr s]) :: post)%list
          = Err (InvalidParameterValueError (VStr s) "s2c_max_compress_level"))).
Proof.
  intros s; split.
  - intros n Hn ->.
    assert (py_in (VStr (format_d n)) LEVEL_LITERALS = true) as Hin
      by (apply level_literal_iff; now exists n).
    pose proof (py_int_format_d n Hn) as Hint.
    assert (forall rest a r,
      PerMessageBzip2Offer.parse_loop
        (("s2c_max_compress_level", [VStr (format_d n)]) :: rest) a r
      = PerMessageBzip2Offer.parse_loop rest a n) as H1.
    { intros. cbn [PerMessageBzip2Offer.parse_loop length Nat.ltb Nat.leb].
      change ("s2c_max_compress_level" =? "c2s_max_compress_level")%string with false.
      change ("s2c_max_compress_level" =? "s2c_max_compress_level")%string with true.
      cbv iota. now rewrite Hin, Hint. }
    assert (forall rest c2s s2c,
      PerMessageBzip2Response.parse_loop
        (("c2s_max_compress_level", [VStr (format_d n)]) :: rest) c2s s2c
      = PerMessageBzip2Response.parse_loop rest n s2c) as H2.
    { intros. cbn [PerMessageBzip2Response.parse_loop length Nat.ltb Nat.leb].
      change ("c2s_max_compress_level" =? "c2s_max_compress_level")%string with true.
      cbv iota. now rewrite Hin, Hint. }
    assert (forall rest c2s s2c,
      PerMessageBzip2Response.parse_loop
        (("s2c_max_compress_level", [VStr (format_d n)]) :: rest) c2s s2c
      = PerMessageBzip2Response.parse_loop rest c2s n) as H3.
    { intros. cbn [PerMessageBzip2Response.parse_loop length Nat.ltb Nat.leb].
      change ("s2c_max_compress_level" =? "c2s_max_compress_level")%string with false.
      change ("s2c_max_compress_level" =? "s2c_max_compress_level")%string with true.
      cbv iota. now rewrite Hin, Hint. }
    repeat split; trivial.
    + unfold PerMessageBzip2Offer.parse. rewrite H1.
      cbn [PerMessageBzip2Offer.parse_loop bind fst snd].
      unfold PerMessageBzip2Offer.init.
      now rewrite (proj2 (permissible_iff n) Hn), andb_false_r.
    + unfold PerMessageBzip2Response.parse. now rewrite H2.
    + unfold PerMessageBzip2Response.parse. now rewrite H3.
  - intros Hs. pose proof (not_level_literal s Hs) as Hin.
    assert (forall rest a r,
      PerMessageBzip2Offer.parse_loop
        (("s2c_max_compress_level", [VStr s]) :: rest) a r
      = Err (InvalidParameterValueError (VStr s) "s2c_max_compress_level")) as H1.
    { intros. cbn [PerMessageBzip2Offer.parse_loop length Nat.ltb Nat.leb].
      change ("s2c_max_compress_level" =? "c2s_max_compress_level")%string with false.
      change ("s2c_max_compress_level" =? "s2c_max_compress_level")%string with true.
      cbv iota. now rewrite Hin. }
    assert (forall rest c2s s2c,
      PerMessageBzip2Response.parse_loop
        (("c2s_max_compress_level", [VStr s]) :: rest) c2s s2c
      = Err (InvalidParameterValueError (VStr s) "c2s_max_compress_level")) as H2.
    { intros. cbn [PerMessageBzip2Response.parse_loop length Nat.ltb Nat.leb].
      change ("c2s_max_compress_level" =? "c2s_max_compress_level")%string with true.
      cbv iota. now rewrite Hin. }
    assert (forall rest c2s s2c,
      PerMessageBzip2Response.parse_loop
        (("s2c_max_compress_level", [VStr s]) :: rest) c2s s2c
      = Err (InvalidParameterValueError (VStr s) "s2c_max_compress_level")) as H3.
    { intros. cbn [PerMessageBzip2Response.parse_loop length Nat.ltb Nat.leb].
      change ("s2c_max_compress_level" =? "c2s_max_compress_level")%string with false.
      change ("s2c_max_compress_level" =? "s2c_max_compress_level")%string with true.
      cbv iota. now rewrite Hin. }
    assert (forall (ok : string * list pyval -> bool) (pre : params_t),
              forallb ok pre = true -> Forall (fun e => ok e = true) pre) as HF
      by (intros ok pre Hpre; apply Forall_forall; now apply forallb_forall).
    split; [exact H1 | split; [exact H2 | split; [exact H3 | split]]].
    + intros pre post Hpre. unfold PerMessageBzip2Offer.parse.
      destruct (offer_loop_prefix pre (HF _ _ Hpre) false 0) as [a [r ->]].
      now rewrite H1.
    + intros pre post Hpre. unfold PerMessageBzip2Response.parse.
      destruct (response_loop_prefix pre (HF _ _ Hpre) 0 0) as [c2s [s2c Hl]].
      rewrite !Hl. now rewrite H2, H3.
Qed.

Lemma level_parameter_parse_witness :
  (PerMessageBzip2Offer.parse [("s2c_max_compress_level", [VStr "4"])]
   = Ok (PerMessageBzip2Offer.mk false 4)) /\
  (PerMessageBzip2Response.parse [("c2s_max_compress_level", [VStr "10"])]
   = Err (InvalidParameterValueError (VStr "10") "c2s_max_compress_level")) /\
  (PerMessageBzip2Response.parse
     [("c2s_max_compress_level", [VStr "3"]); ("s2c_max_compress_level", [VStr "abc"])]
   = Err (InvalidParameterValueError (VStr "abc") "s2c_max_compress_level")) /\
  (PerMessageBzip2Offer.parse
     [("c2s_max_compress_level", [VBool true]); ("s2c_max_compress_level", [VStr "0"])]
   = Err (InvalidParameterValueError (VStr "0") "s2c_max_compress_level")).
Proof.
  assert (forall s : string,
            py_in (VStr s) LEVEL_LITERALS = false ->
            forall n, 1 <= n <= 9 -> s <> format_d n) as Hno.
  { intros s Hs n Hn ->.
    rewrite (proj2 (level_literal_iff (format_d n))) in Hs; [discriminate|].
    now exists n. }
  split; [|split; [|split]].
  - apply (proj1 (level_parameter_parse "4") 4); [lia | reflexivity].
  - destruct (proj2 (level_parameter_parse "10") (Hno "10" eq_refl))
      as [_ [_ [_ [_ H]]]].
    apply (H [] []). reflexivity.
  - destruct (proj2 (level_parameter_parse "abc") (Hno "abc" eq_refl))
      as [_ [_ [_ [_ H]]]].
    apply (H [("c2s_max_compress_level", [VStr "3"])] []). reflexivity.
  - destruct (proj2 (level_parameter_parse "0") (Hno "0" eq_refl))
      as [_ [_ [_ [H _]]]].
    apply (H [("c2s_max_compress_level", [VBool true])] []). reflexivity.
Defined.

(** ** Duplicated parameters *)

(** At a parameter with more than one value both loops stop, before
    they look at the name or at a value. *)
Lemma loops_at_overlong (p : string) (vals : list pyval) (rest : params_t) :
  (1 < length vals)%nat ->
  (forall a r, PerMessageBzip2Offer.parse_loop ((p, vals) :: rest) a r
               = Err (DuplicateParameterError p)) /\
  (forall c s, PerMessageBzip2Response.parse_loop ((p, vals) :: rest) c s
               = Err (DuplicateParameterError p)).
Proof.
  intros H; apply Nat.ltb_lt in H.
  split; intros; cbn [PerMessageBzip2Offer.parse_loop PerMessageBzip2Response.parse_loop];
    now rewrite H.
Qed.

(** A loop that meets an overlong parameter somewhere does not reach
    its end. *)
Lemma offer_loop_fails (pre post : params_t) (p : string) (vals : list pyval) :
  (1 < length vals)%nat ->
  forall a r, exists e,
    PerMessageBzip2Offer.parse_loop (pre ++ (p, vals) :: post)%list a r = Err e.
Proof.
  intros H. induction pre as [|[q vs] pre IH]; intros a r.
  - exists (DuplicateParameterError p). now apply loops_at_overlong.
  - rewrite <- app_comm_cons. cbn [PerMessageBzip2Offer.parse_loop].
    destruct (1 <? length vs)%nat; [now eexists|].
    destruct vs as [|val ?]; [now eexists|].
    destruct (String.eqb q "c2s_max_compress_level").
    { destruct (py_ne val (VBool true)); [now eexists | apply IH]. }
    destruct (String.eqb q "s2c_max_compress_level"); [|now eexists].
    destruct (negb (py_in val LEVEL_LITERALS)); [now eexists|].
    destruct (py_int val); cbn [bind]; [apply IH | now eexists].
Qed.

Lemma response_loop_fails (pre post : params_t) (p : string) (vals : list pyval) :
  (1 < length vals)%nat ->
  forall c s, exists e,
    PerMessageBzip2Response.parse_loop (pre ++ (p, vals) :: post)%list c s = Err e.
Proof.
  intros H. induction pre as [|[q vs] pre IH]; intros c s.
  - exists (DuplicateParameterError p). now apply loops_at_overlong.
  - rewrite <- app_comm_cons. cbn [PerMessageBzip2Response.parse_loop].
    destruct (1 <? length vs)%nat; [now eexists|].
    destruct vs as [|val ?]; [now eexists|].
    destruct (String.eqb q "c2s_max_compress_level").
    { destruct (negb (py_in val LEVEL_LITERALS)); [now eexists|].
      destruct (py_int val); cbn [bind]; [apply IH | now eexists]. }
    destruct (String.eqb q "s2c_max_compress_level"); [|now eexists].
    destruct (negb (py_in val LEVEL_LITERALS)); [now eexists|].
    destruct (py_int val); cbn [bind]; [apply IH | now eexists].
Qed.

(** A mapping with a duplicated parameter whose parse does not end in
    [DuplicateParameterError]: the loop meets the parameter with the
    illegal value first.  The two mappings of each parser have the same
    two keys with the roles exchanged, so whichever of the keys the
    dictionary yields first, one of the two is such a mapping. *)
Lemma duplicate_behind_illegal_value :
  (existsb overlong [("s2c_max_compress_level", [VStr "0"]);
                     ("c2s_max_compress_level", [VBool true; VBool true])] = true /\
   PerMessageBzip2Offer.parse [("s2c_max_compress_level", [VStr "0"]);
                               ("c2s_max_compress_level", [VBool true; VBool true])]
   = Err (InvalidParameterValueError (VStr "0") "s2c_max_compress_level")) /\
  (existsb overlong [("c2s_max_compress_level", [VStr "x"]);
                     ("s2c_max_compress_level", [VStr "1"; VStr "2"])] = true /\
   PerMessageBzip2Offer.parse [("c2s_max_compress_level", [VStr "x"]);
                               ("s2c_max_compress_level", [VStr "1"; VStr "2"])]
   = Err (InvalidParameterValueError (VStr "x") "c2s_max_compress_level")) /\
  (existsb overlong [("s2c_max_compress_level", [VStr "0"]);
                     ("c2s_max_compress_level", [VStr "1"; VStr "2"])] = true /\
   PerMessageBzip2Response.parse [("s2c_max_compress_level", [VStr "0"]);
                                  ("c2s_max_compress_level", [VStr "1"; VStr "2"])]
   = Err (InvalidParameterValueError (VStr "0") "s2c_max_compress_level")) /\
  (existsb overlong [("c2s_max_compress_level", [VStr "0"]);
                     ("s2c_max_compress_level", [VStr "1"; VStr "2"])] = true /\
   PerMessageBzip2Response.parse [("c2s_max_compress_level", [VStr "0"]);
                                  ("s2c_max_compress_level", [VStr "1"; VStr "2"])]
   = Err (InvalidParameterValueError (VStr "0") "c2s_max_compress_level")).
Proof. repeat split. Qed.

(** A parameter that is neither overlong nor acceptable stops the loop
    with an error of its own. *)
Lemma offer_loop_rejects (e : string * list pyval) :
  overlong e = false -> offer_param_ok e = false ->
  forall rest a r, exists err,
    PerMessageBzip2Offer.parse_loop (e :: rest) a r = Err err /\
    forall p, err <> DuplicateParameterError p.
Proof.
  destruct e as [q vs]. unfold overlong; cbn [snd offer_param_ok].
  intros Hlen Hok rest a r. cbn [PerMessageBzip2Offer.parse_loop]. rewrite Hlen.
  destruct vs as [|val [|? ?]]; [now eexists | | discriminate].
  unfold py_ne. destruct (String.eqb q "c2s_max_compress_level").
  - rewrite andb_true_l in Hok. apply orb_false_iff in Hok as [-> _]. now eexists.
  - rewrite andb_false_l, orb_false_l in Hok.
    destruct (String.eqb q "s2c_max_compress_level"); [|now eexists].
    rewrite andb_true_l in Hok. rewrite Hok. now eexists.
Qed.

Lemma response_loop_rejects (e : string * list pyval) :
  overlong e = false -> response_param_ok e = false ->
  forall rest c s, exists err,
    PerMessageBzip2Response.parse_loop (e :: rest) c s = Err err /\
    forall p, err <> DuplicateParameterError p.
Proof.
  destruct e as [q vs]. unfold overlong; cbn [snd response_param_ok].
  intros Hlen Hok rest c s. cbn [PerMessageBzip2Response.parse_loop]. rewrite Hlen.
  destruct vs as [|val [|? ?]]; [now eexists | | discriminate].
  destruct (String.eqb q "c2s_max_compress_level").
  - rewrite orb_true_l, andb_true_l in Hok. rewrite Hok. now eexists.
  - rewrite orb_false_l in Hok.
    destruct (String.eqb q "s2c_max_compress_level"); [|now eexists].
    rewrite andb_true_l in Hok. rewrite Hok. now eexists.
Qed.

(** C3, as the code has it: a mapping in which some parameter has more
    than one value is rejected by [Offer.parse] and by [Response.parse].
    The error is [DuplicateParameterError] for that parameter, whatever
    its name and its values and whatever follows it, when every parameter
    iterated before it is acceptable: the test of the length comes before
    the name and the first value are looked at.  A parameter that is
    iterated behind acceptable ones and is itself neither acceptable nor
    overlong ends the parse with an error that is not
    [DuplicateParameterError], whatever follows it. *)
Theorem duplicate_parameter_error :
  forall (pre post : params_t) (p : string) (vals : list pyval),
    let params := (pre ++ (p, vals) :: post)%list in
    ((1 < length vals)%nat ->
     (exists e, PerMessageBzip2Offer.parse params = Err e) /\
     (exists e, PerMessageBzip2Response.parse params = Err e) /\
     (forallb offer_param_ok pre = true ->
      PerMessageBzip2Offer.parse params = Err (DuplicateParameterError p)) /\
     (forallb response_param_ok pre = true ->
      PerMessageBzip2Response.parse params = Err (DuplicateParameterError p))) /\
    (overlong (p, vals) = false -> offer_param_ok (p, vals) = false ->
     forallb offer_param_ok pre = true ->
     exists e, PerMessageBzip2Offer.parse params = Err e /\
               forall q, e <> DuplicateParameterError q) /\
    (overlong (p, vals) = false -> response_param_ok (p, vals) = false ->
     forallb response_param_ok pre = true ->
     exists e, PerMessageBzip2Response.parse params = Err e /\
               forall q, e <> DuplicateParameterError q).
Proof.
  intros pre post p vals params; subst params.
  assert (forall ok : string * list pyval -> bool,
            forallb ok pre = true -> Forall (fun e => ok e = true) pre) as HF
    by (intros ok Hpre; apply Forall_forall; now apply forallb_forall).
  unfold PerMessageBzip2Offer.parse, PerMessageBzip2Response.parse.
  split; [intros H; split; [|split; [|split]] | split].
  - destruct (offer_loop_fails pre post p vals H false 0) as [e ->]. now exists e.
  - destruct (response_loop_fails pre post p vals H 0 0) as [e ->]. now exists e.
  - intros Hpre.
    destruct (offer_loop_prefix pre (HF _ Hpre) false 0) as [a [r ->]].
    now rewrite (proj1 (loops_at_overlong p vals post H)).
  - intros Hpre.
    destruct (response_loop_prefix pre (HF _ Hpre) 0 0) as [c [s ->]].
    now rewrite (proj2 (loops_at_overlong p vals post H)).
  - intros Hlen Hbad Hpre.
    destruct (offer_loop_prefix pre (HF _ Hpre) false 0) as [a [r ->]].
    destruct (offer_loop_rejects _ Hlen Hbad post a r) as [e [-> He]]. now exists e.
  - intros Hlen Hbad Hpre.
    destruct (response_loop_prefix pre (HF _ Hpre) 0 0) as [c [s ->]].
    destruct (response_loop_rejects _ Hlen Hbad post c s) as [e [-> He]]. now exists e.
Qed.

Lemma duplicate_parameter_error_witness :
  (PerMessageBzip2Offer.parse
     [("s2c_max_compress_level", [VStr "3"]);
      ("c2s_max_compress_level", [VBool true; VBool true]);
      ("unknown", [])]
   = Err (DuplicateParameterError "c2s_max_compress_level") /\
   PerMessageBzip2Response.parse
     [("s2c_max_compress_level", [VStr "3"]);
      ("c2s_max_compress_level", [VBool true; VBool true]);
      ("unknown", [])]
   = Err (DuplicateParameterError "c2s_max_compress_level")) /\
  (exists e,
     PerMessageBzip2Offer.parse
       [("s2c_max_compress_level", [VStr "3"]);
        ("c2s_max_compress_level", [VStr "3"]);
        ("unknown", [VStr "1"; VStr "2"])]
     = Err e /\ forall q, e <> DuplicateParameterError q).
Proof.
  split.
  - destruct (duplicate_parameter_error
                [("s2c_max_compress_level", [VStr "3"])] [("unknown", [])]
                "c2s_max_compress_level" [VBool true; VBool true]) as [H _].
    cbn [length] in H. specialize (H (Nat.lt_succ_diag_r 1)).
    destruct H as [_ [_ [Ho Hr]]].
    split; [apply Ho | apply Hr]; reflexivity.
  - destruct (duplicate_parameter_error
                [("s2c_max_compress_level", [VStr "3"])]
                [("unknown", [VStr "1"; VStr "2"])]
                "c2s_max_compress_level" [VStr "3"]) as [_ [H _]].
    apply H; reflexivity.
Defined.

(** ** Accept: construction and extension string *)

(** A level that is neither 0 nor permissible is refused before the
    offer is consulted: the error is [ConstructionError], not
    [UnsupportedFeatureError], although the level is non-zero and the
    offer does not accept a maximum level. *)
Lemma accept_level_10_against_refusing_offer :
  PerMessageBzip2Accept.init (PerMessageBzip2Offer.mk false 0) 10
  = Err ConstructionError.
Proof. reflexivity. Qed.

(** C4, as the code has it: constructing an Accept fails with
    [UnsupportedFeatureError] when the requested level is in 1..9 and the
    offer's [acceptMaxCompressLevel] is false; it succeeds, and stores the
    offer and the level, when the level is 0, or is in 1..9 and the
    offer's [acceptMaxCompressLevel] is true; a level that is neither 0
    nor in 1..9 fails with [ConstructionError] whatever the offer says. *)
Theorem accept_init_outcomes :
  forall (offer : PerMessageBzip2Offer.t) (r : Z),
    (1 <= r <= 9 ->
     PerMessageBzip2Offer.acceptMaxCompressLevel offer = false ->
     PerMessageBzip2Accept.init offer r = Err UnsupportedFeatureError) /\
    (r = 0 ->
     PerMessageBzip2Accept.init offer r = Ok (PerMessageBzip2Accept.mk offer r)) /\
    (1 <= r <= 9 ->
     PerMessageBzip2Offer.acceptMaxCompressLevel offer = true ->
     PerMessageBzip2Accept.init offer r = Ok (PerMessageBzip2Accept.mk offer r)) /\
    (r < 0 \/ 9 < r ->
     PerMessageBzip2Accept.init offer r = Err ConstructionError).
Proof.
  intros offer r. unfold PerMessageBzip2Accept.init. repeat split.
  - intros Hr Ha. rewrite (proj2 (permissible_iff r) Hr), Ha.
    assert ((r =? 0) = false) as -> by lia. reflexivity.
  - intros ->. reflexivity.
  - intros Hr Ha. rewrite (proj2 (permissible_iff r) Hr), Ha.
    now rewrite !andb_false_r.
  - intros Hr. assert ((r =? 0) = false) as -> by lia.
    destruct (permissible r) eqn:E; [apply permissible_iff in E; lia | reflexivity].
Qed.

Lemma accept_init_outcomes_witness :
  PerMessageBzip2Accept.init (PerMessageBzip2Offer.mk false 3) 5
  = Err UnsupportedFeatureError /\
  PerMessageBzip2Accept.init (PerMessageBzip2Offer.mk false 3) 0
  = Ok (PerMessageBzip2Accept.mk (PerMessageBzip2Offer.mk false 3) 0) /\
  PerMessageBzip2Accept.init (PerMessageBzip2Offer.mk true 0) 5
  = Ok (PerMessageBzip2Accept.mk (PerMessageBzip2Offer.mk true 0) 5) /\
  PerMessageBzip2Accept.init (PerMessageBzip2Offer.mk true 0) (-1)
  = Err ConstructionError.
Proof.
  destruct (accept_init_outcomes (PerMessageBzip2Offer.mk false 3) 5) as [H1 _].
  destruct (accept_init_outcomes (PerMessageBzip2Offer.mk false 3) 0) as [_ [H2 _]].
  destruct (accept_init_outcomes (PerMessageBzip2Offer.mk true 0) 5) as [_ [_ [H3 _]]].
  destruct (accept_init_outcomes (PerMessageBzip2Offer.mk true 0) (-1)) as [_ [_ [_ H4]]].
  split; [|split; [|split]].
  - apply H1; [lia | reflexivity].
  - apply H2; reflexivity.
  - apply H3; [lia | reflexivity].
  - apply H4; lia.
Defined.

Lemma accept_init_ok (offer : PerMessageBzip2Offer.t) (r : Z)
      (accept : PerMessageBzip2Accept.t) :
  PerMessageBzip2Accept.init offer r = Ok accept ->
  accept = PerMessageBzip2Accept.mk offer r /\
  (r = 0 \/ 1 <= r <= 9 /\ PerMessageBzip2Offer.acceptMaxCompressLevel offer = true).
Proof.
  unfold PerMessageBzip2Accept.init.
  destruct (Z.eqb_spec r 0) as [->|Hr]; cbn [negb andb].
  - intros [= <-]. now split; [|left].
  - destruct (permissible r) eqn:E; cbn [negb]; [|discriminate].
    destruct (PerMessageBzip2Offer.acceptMaxCompressLevel offer); cbn [negb];
      [|discriminate].
    intros [= <-]. apply permissible_iff in E. now split; [|right].
Qed.

Lemma offer_init_ok (a : pyval) (r : Z) (offer : PerMessageBzip2Offer.t) :
  PerMessageBzip2Offer.init a r = Ok offer ->
  exists b, a = VBool b /\ offer = PerMessageBzip2Offer.mk b r /\ 0 <= r <= 9.
Proof.
  unfold PerMessageBzip2Offer.init. destruct a as [b| |]; try discriminate.
  destruct (Z.eqb_spec r 0) as [->|Hr]; cbn [negb andb].
  - intros [= <-]. exists b. repeat split; lia.
  - destruct (permissible r) eqn:E; cbn [negb]; [|discriminate].
    intros [= <-]. apply permissible_iff in E. exists b. repeat split; lia.
Qed.

(** C5: the extension string of a validly constructed Accept is the
    extension name, followed, if and only if the offer's
    [requestMaxCompressLevel] is not 0, by [; s2c_max_compress_level=<n>]
    with the offer's level, followed, if and only if the Accept's own
    [requestMaxCompressLevel] is not 0, by [; c2s_max_compress_level=<m>]
    with the Accept's level. *)
Theorem accept_getExtensionString_spec :
  forall (offer : PerMessageBzip2Offer.t) (r : Z) (accept : PerMessageBzip2Accept.t),
    PerMessageBzip2Accept.init offer r = Ok accept ->
    PerMessageBzip2Accept.getExtensionString accept
    = accept_extension_string
        (PerMessageBzip2Offer.requestMaxCompressLevel offer) r.
Proof.
  intros offer r accept H. apply accept_init_ok in H as [-> _].
  unfold PerMessageBzip2Accept.getExtensionString, accept_extension_string,
    accept_extension_tokens, level_token.
  cbn [PerMessageBzip2Accept.offer PerMessageBzip2Accept.requestMaxCompressLevel].
  destruct (PerMessageBzip2Offer.requestMaxCompressLevel offer =? 0);
    destruct (r =? 0); reflexivity.
Qed.

Lemma accept_getExtensionString_spec_witness :
  PerMessageBzip2Accept.getExtensionString
    (PerMessageBzip2Accept.mk (PerMessageBzip2Offer.mk true 4) 6)
  = "permessage-bzip2; s2c_max_compress_level=4; c2s_max_compress_level=6".
Proof.
  apply (accept_getExtensionString_spec (PerMessageBzip2Offer.mk true 4) 6).
  reflexivity.
Defined.

(** ** Response: what [parse] returns and what the constructor takes *)

Lemma response_loop_range (params : params_t) :
  forall c s c' s',
    0 <= c <= 9 -> 0 <= s <= 9 ->
    PerMessageBzip2Response.parse_loop params c s = Ok (c', s') ->
    0 <= c' <= 9 /\ 0 <= s' <= 9.
Proof.
  induction params as [|[p vals] rest IH]; intros c s c' s' Hc Hs.
  - intros [= <- <-]. now split.
  - cbn [PerMessageBzip2Response.parse_loop].
    destruct (1 <? length vals)%nat; [discriminate|].
    destruct vals as [|val ?]; [discriminate|].
    destruct (py_in val LEVEL_LITERALS) eqn:Hin; cbn [negb];
      [|now destruct (String.eqb p "c2s_max_compress_level"),
                     (String.eqb p "s2c_max_compress_level")].
    destruct (level_literal_value val Hin) as [n [Hn [_ ->]]]. cbn [bind].
    destruct (String.eqb p "c2s_max_compress_level");
      [|destruct (String.eqb p "s2c_max_compress_level"); [|discriminate]];
      apply IH; lia.
Qed.

Lemma response_parse_range (params : params_t) (response : PerMessageBzip2Response.t) :
  PerMessageBzip2Response.parse params = Ok response ->
  0 <= PerMessageBzip2Response.c2s_max_compress_level response <= 9 /\
  0 <= PerMessageBzip2Response.s2c_max_compress_level response <= 9.
Proof.
  unfold PerMessageBzip2Response.parse.
  destruct (PerMessageBzip2Response.parse_loop params 0 0) as [[c s]|] eqn:E;
    [|discriminate].
  cbn. intros [= <-]. cbn.
  apply (response_loop_range params 0 0); trivial; lia.
Qed.

(** The constructor of a Response accepts the level 10 and the level -1. *)
Lemma response_init_out_of_range :
  PerMessageBzip2Response.init 10 (-1) = Ok (PerMessageBzip2Response.mk 10 (-1)) /\
  PerMessageBzip2Response.init 0 10 = Ok (PerMessageBzip2Response.mk 0 10).
Proof. split; reflexivity. Qed.

(** C10, as the code has it: the constructor of a Response tests
    nothing; for any two integers it succeeds and stores them as they are
    given.  Both fields lie in 0..9 for every Response that [parse]
    returns. *)
Theorem response_init_total :
  (forall c s : Z,
     PerMessageBzip2Response.init c s = Ok (PerMessageBzip2Response.mk c s)) /\
  (forall (params : params_t) (response : PerMessageBzip2Response.t),
     PerMessageBzip2Response.parse params = Ok response ->
     0 <= PerMessageBzip2Response.c2s_max_compress_level response <= 9 /\
     0 <= PerMessageBzip2Response.s2c_max_compress_level response <= 9).
Proof.
  split; [reflexivity | exact response_parse_range].
Qed.

Lemma response_init_total_witness :
  0 <= 5 <= 9 /\ 0 <= 0 <= 9.
Proof.
  apply (proj2 response_init_total
               [("c2s_max_compress_level", [VStr "5"])]
               (PerMessageBzip2Response.mk 5 0)).
  reflexivity.
Defined.

(** ** Processor: construction *)

(** A processor made from a directly constructed Response can hold a
    level outside 1..9. *)
Lemma processor_level_10_from_response :
  PerMessageBzip2Response.init 0 10 = Ok (PerMessageBzip2Response.mk 0 10) /\
  PerMessageBzip2.s2c_max_compress_level
    (PerMessageBzip2.createFromResponse Stored.bz2 true
       (PerMessageBzip2Response.mk 0 10)) = 10.
Proof. split; reflexivity. Qed.

(** C6, as the code has it: [createFromAccept] takes the s2c level from
    the accepted offer's [requestMaxCompressLevel] and the c2s level from
    the Accept's, [createFromResponse] takes them from the Response's
    fields of the same names, and in both a level of 0 becomes 9; so an
    offer that requests no level gives the s2c level 9.  Both levels of
    the processor are in 1..9 when it is made from an Accept constructed
    over a constructed Offer, from a Response whose fields are in 0..9,
    or from a parsed Response. *)
Theorem processor_levels :
  forall (bz2 : Bz2) (isServer : bool),
    let lvl (n : Z) := if n =? 0 then 9 else n in
    (forall accept : PerMessageBzip2Accept.t,
       let p := PerMessageBzip2.createFromAccept bz2 isServer accept in
       PerMessageBzip2.s2c_max_compress_level p
       = lvl (PerMessageBzip2Offer.requestMaxCompressLevel
                (PerMessageBzip2Accept.offer accept)) /\
       PerMessageBzip2.c2s_max_compress_level p
       = lvl (PerMessageBzip2Accept.requestMaxCompressLevel accept) /\
       (PerMessageBzip2Offer.requestMaxCompressLevel
          (PerMessageBzip2Accept.offer accept) = 0 ->
        PerMessageBzip2.s2c_max_compress_level p = 9)) /\
    (forall response : PerMessageBzip2Response.t,
       let p := PerMessageBzip2.createFromResponse bz2 isServer response in
       PerMessageBzip2.s2c_max_compress_level p
       = lvl (PerMessageBzip2Response.s2c_max_compress_level response) /\
       PerMessageBzip2.c2s_max_compress_level p
       = lvl (PerMessageBzip2Response.c2s_max_compress_level response)) /\
    (forall a r offer r' accept,
       PerMessageBzip2Offer.init a r = Ok offer ->
       PerMessageBzip2Accept.init offer r' = Ok accept ->
       let p := PerMessageBzip2.createFromAccept bz2 isServer accept in
       1 <= PerMessageBzip2.s2c_max_compress_level p <= 9 /\
       1 <= PerMessageBzip2.c2s_max_compress_level p <= 9) /\
    (forall response,
       0 <= PerMessageBzip2Response.s2c_max_compress_level response <= 9 ->
       0 <= PerMessageBzip2Response.c2s_max_compress_level response <= 9 ->
       let p := PerMessageBzip2.createFromResponse bz2 isServer response in
       1 <= PerMessageBzip2.s2c_max_compress_level p <= 9 /\
       1 <= PerMessageBzip2.c2s_max_compress_level p <= 9) /\
    (forall params response,
       PerMessageBzip2Response.parse params = Ok response ->
       let p := PerMessageBzip2.createFromResponse bz2 isServer response in
       1 <= PerMessageBzip2.s2c_max_compress_level p <= 9 /\
       1 <= PerMessageBzip2.c2s_max_compress_level p <= 9).
Proof.
  intros bz2 isServer lvl.
  assert (forall n, (if negb (n =? 0) then n else PerMessageBzip2.DEFAULT_COMPRESS_LEVEL)
                    = lvl n) as Hlvl
    by (intros n; unfold lvl; now destruct (n =? 0)).
  assert (forall n, 0 <= n <= 9 -> 1 <= lvl n <= 9) as Hrange
    by (intros n Hn; unfold lvl; destruct (Z.eqb_spec n 0); lia).
  assert (forall response,
    PerMessageBzip2.s2c_max_compress_level
      (PerMessageBzip2.createFromResponse bz2 isServer response)
    = lvl (PerMessageBzip2Response.s2c_max_compress_level response) /\
    PerMessageBzip2.c2s_max_compress_level
      (PerMessageBzip2.createFromResponse bz2 isServer response)
    = lvl (PerMessageBzip2Response.c2s_max_compress_level response)) as Hresp
    by (intros; cbn; now rewrite !Hlvl).
  split; [|split; [|split; [|split]]].
  - intros accept p; subst p; cbn. rewrite !Hlvl. repeat split.
    intros ->. reflexivity.
  - exact Hresp.
  - intros a r offer r' accept Ho Ha p; subst p.
    apply offer_init_ok in Ho as [b [_ [-> Hr]]].
    apply accept_init_ok in Ha as [-> Hr'].
    cbn. rewrite !Hlvl. split; apply Hrange; [lia|].
    destruct Hr' as [->|[Hr' _]]; lia.
  - intros response Hs Hc p; subst p.
    destruct (Hresp response) as [-> ->]. split; now apply Hrange.
  - intros params response Hp p; subst p.
    destruct (response_parse_range params response Hp) as [Hc Hs].
    destruct (Hresp response) as [-> ->]. split; now apply Hrange.
Qed.

Lemma processor_levels_witness :
  1 <= PerMessageBzip2.s2c_max_compress_level
         (PerMessageBzip2.createFromAccept Stored.bz2 true
            (PerMessageBzip2Accept.mk (PerMessageBzip2Offer.mk true 0) 4)) <= 9 /\
  1 <= PerMessageBzip2.c2s_max_compress_level
         (PerMessageBzip2.createFromAccept Stored.bz2 true
            (PerMessageBzip2Accept.mk (PerMessageBzip2Offer.mk true 0) 4)) <= 9.
Proof.
  destruct (processor_levels Stored.bz2 true) as [_ [_ [H _]]].
  apply (H (VBool true) 0 (PerMessageBzip2Offer.mk true 0) 4
           (PerMessageBzip2Accept.mk (PerMessageBzip2Offer.mk true 0) 4));
    reflexivity.
Defined.

(** ** Processor: the message life cycle *)

Section Lifecycle.

Variable bz2 : Bz2.

(** C7: on a processor without a compressor, [startCompressMessage]
    asks the library for a compressor at the s2c level when the processor
    is the server and at the c2s level when it is the client, and stores
    the compressor it gets (when the library refuses the level, its error
    is raised and the processor is unchanged).  On a processor that has a
    compressor the call changes nothing; in particular a second call
    after a first one leaves the compressor of the first in place. *)
Theorem startCompressMessage_spec :
  forall self : PerMessageBzip2.t bz2,
    (forall c,
       PerMessageBzip2._compressor self = None ->
       PerMessageBzip2._isServer self = true ->
       BZ2Compressor bz2 (PerMessageBzip2.s2c_max_compress_level self) = Ok c ->
       PerMessageBzip2.startCompressMessage self
       = (Ok tt, PerMessageBzip2.set_compressor (Some c) self)) /\
    (forall c,
       PerMessageBzip2._compressor self = None ->
       PerMessageBzip2._isServer self = false ->
       BZ2Compressor bz2 (PerMessageBzip2.c2s_max_compress_level self) = Ok c ->
       PerMessageBzip2.startCompressMessage self
       = (Ok tt, PerMessageBzip2.set_compressor (Some c) self)) /\
    (forall e,
       PerMessageBzip2._compressor self = None ->
       BZ2Compressor bz2
         (if PerMessageBzip2._isServer self
          then PerMessageBzip2.s2c_max_compress_level self
          else PerMessageBzip2.c2s_max_compress_level self) = Err e ->
       PerMessageBzip2.startCompressMessage self = (Err e, self)) /\
    (forall c,
       PerMessageBzip2._compressor self = Some c ->
       PerMessageBzip2.startCompressMessage self = (Ok tt, self)) /\
    (forall self',
       PerMessageBzip2.startCompressMessage self = (Ok tt, self') ->
       PerMessageBzip2.startCompressMessage self' = (Ok tt, self')).
Proof.
  intros self. unfold PerMessageBzip2.startCompressMessage.
  split; [|split; [|split; [|split]]].
  - intros c -> -> ->. reflexivity.
  - intros c -> -> ->. reflexivity.
  - intros e ->. destruct (PerMessageBzip2._isServer self); intros ->; reflexivity.
  - intros c ->. now destruct (PerMessageBzip2._isServer self).
  - intros self' H.
    destruct (PerMessageBzip2._compressor self) as [c|] eqn:E.
    + assert (self' = self) as ->
        by (destruct (PerMessageBzip2._isServer self); now injection H).
      rewrite E. now destruct (PerMessageBzip2._isServer self).
    + destruct (PerMessageBzip2._isServer self) eqn:Es.
      * destruct (BZ2Compressor bz2 (PerMessageBzip2.s2c_max_compress_level self))
          as [c|]; [|discriminate].
        injection H as <-. cbn. now rewrite Es.
      * destruct (BZ2Compressor bz2 (PerMessageBzip2.c2s_max_compress_level self))
          as [c|]; [|discriminate].
        injection H as <-. cbn. now rewrite Es.
Qed.

(** C8: on a processor with a compressor, [endCompressMessage] returns
    what the compressor's [flush] returns and leaves the processor with no
    compressor, and with the decompressor, the two levels and the role it
    had; [endDecompressMessage] leaves the processor with no decompressor,
    and with the compressor, the two levels and the role it had. *)
Theorem end_message_frame :
  forall self : PerMessageBzip2.t bz2,
    (forall c data c',
       PerMessageBzip2._compressor self = Some c ->
       flush bz2 c = (Ok data, c') ->
       exists self',
         PerMessageBzip2.endCompressMessage self = (Ok data, self') /\
         PerMessageBzip2._compressor self' = None /\
         PerMessageBzip2._decompressor self' = PerMessageBzip2._decompressor self /\
         same_config self self') /\
    (exists self',
       PerMessageBzip2.endDecompressMessage self = (Ok tt, self') /\
       PerMessageBzip2._decompressor self' = None /\
       PerMessageBzip2._compressor self' = PerMessageBzip2._compressor self /\
       same_config self self').
Proof.
  intros self; split.
  - intros c data c' Hc Hf.
    exists (PerMessageBzip2.set_compressor None self).
    unfold PerMessageBzip2.endCompressMessage. rewrite Hc, Hf.
    repeat split.
  - exists (PerMessageBzip2.set_decompressor None self). repeat split.
Qed.

(** C9: after an [endCompressMessage] that returned, the processor has
    no compressor, and a second [endCompressMessage] raises
    [AttributeError] and leaves the processor as it is: no codec is
    flushed and nothing is returned.  The same holds on every processor
    without a compressor. *)
Theorem endCompressMessage_twice :
  forall self : PerMessageBzip2.t bz2,
    (forall data self',
       PerMessageBzip2.endCompressMessage self = (Ok data, self') ->
       PerMessageBzip2._compressor self' = None /\
       PerMessageBzip2.endCompressMessage self' = (Err AttributeError, self')) /\
    (PerMessageBzip2._compressor self = None ->
     PerMessageBzip2.endCompressMessage self = (Err AttributeError, self)).
Proof.
  intros self. unfold PerMessageBzip2.endCompressMessage at 1 3. split.
  - intros data self'.
    destruct (PerMessageBzip2._compressor self) as [c|]; [|discriminate].
    destruct (flush bz2 c) as [[d|e] c']; [|discriminate].
    intros [= <- <-]. split; reflexivity.
  - intros ->. reflexivity.
Qed.

End Lifecycle.

(** A server-side processor over the stored codec, before and inside a
    message. *)
Lemma startCompressMessage_spec_witness :
  PerMessageBzip2.startCompressMessage (PerMessageBzip2.init Stored.bz2 true 3 0)
  = (Ok tt,
     PerMessageBzip2.mk (bz2 := Stored.bz2) true
       (Some (Stored.mkc 3 [] true)) None 3 9).
Proof.
  destruct (startCompressMessage_spec Stored.bz2
              (PerMessageBzip2.init Stored.bz2 true 3 0)) as [H _].
  apply (H (Stored.mkc 3 [] true)); reflexivity.
Defined.

Lemma end_message_frame_witness :
  exists self',
    PerMessageBzip2.endCompressMessage
      (PerMessageBzip2.mk (bz2 := Stored.bz2) false
         (Some (Stored.mkc 9 [Byte.x01; Byte.x02] true)) (Some tt) 9 9)
    = (Ok [Byte.x01; Byte.x02], self') /\
    PerMessageBzip2._compressor self' = None /\
    PerMessageBzip2._decompressor self' = Some tt.
Proof.
  destruct (end_message_frame Stored.bz2
              (PerMessageBzip2.mk (bz2 := Stored.bz2) false
                 (Some (Stored.mkc 9 [Byte.x01; Byte.x02] true)) (Some tt) 9 9))
    as [H _].
  destruct (H (Stored.mkc 9 [Byte.x01; Byte.x02] true) [Byte.x01; Byte.x02]
              (Stored.mkc 9 [] false) eq_refl eq_refl)
    as [self' [H1 [H2 [H3 _]]]].
  exists self'. split; [exact H1 | split; [exact H2 | exact H3]].
Defined.

Lemma endCompressMessage_twice_witness :
  PerMessageBzip2.endCompressMessage
    (PerMessageBzip2.mk (bz2 := Stored.bz2) true None None 9 9)
  = (Err AttributeError,
     PerMessageBzip2.mk (bz2 := Stored.bz2) true None None 9 9).
Proof.
  destruct (endCompressMessage_twice Stored.bz2
              (PerMessageBzip2.mk (bz2 := Stored.bz2) true
                 (Some (Stored.mkc 9 [] true)) None 9 9)) as [H _].
  apply (H [] (PerMessageBzip2.mk (bz2 := Stored.bz2) true None None 9 9)).
  reflexivity.
Defined.

(** * Further properties of the parsers *)

(** ** One iteration at a time *)

Lemma offer_loop_cons (e : string * list pyval) (rest : params_t) (a : bool) (r : Z) :
  PerMessageBzip2Offer.parse_loop (e :: rest) a r
  = (st <- PerMessageBzip2Offer.parse_loop [e] a r ;;
     PerMessageBzip2Offer.parse_loop rest (fst st) (snd st)).
Proof.
  destruct e as [p vals]. cbn [PerMessageBzip2Offer.parse_loop].
  destruct (1 <? length vals)%nat; [reflexivity|].
  destruct vals as [|val ?]; [reflexivity|].
  destruct (String.eqb p "c2s_max_compress_level");
    [now destruct (py_ne val (VBool true))|].
  destruct (String.eqb p "s2c_max_compress_level"); [|reflexivity].
  destruct (negb (py_in val LEVEL_LITERALS)); [reflexivity|].
  now destruct (py_int val).
Qed.

Lemma response_loop_cons (e : string * list pyval) (rest : params_t) (c s : Z) :
  PerMessageBzip2Response.parse_loop (e :: rest) c s
  = (st <- PerMessageBzip2Response.parse_loop [e] c s ;;
     PerMessageBzip2Response.parse_loop rest (fst st) (snd st)).
Proof.
  destruct e as [p vals]. cbn [PerMessageBzip2Response.parse_loop].
  destruct (1 <? length vals)%nat; [reflexivity|].
  destruct vals as [|val ?]; [reflexivity|].
  destruct (String.eqb p "c2s_max_compress_level").
  { destruct (negb (py_in val LEVEL_LITERALS)); [reflexivity|].
    now destruct (py_int val). }
  destruct (String.eqb p "s2c_max_compress_level"); [|reflexivity].
  destruct (negb (py_in val LEVEL_LITERALS)); [reflexivity|].
  now destruct (py_int val).
Qed.

(** What an acceptable parameter does to the locals of the loop. *)
Lemma offer_step_cases (e : string * list pyval) :
  offer_param_ok e = true ->
  (fst e = "c2s_max_compress_level" /\
   forall a r, PerMessageBzip2Offer.parse_loop [e] a r = Ok (true, r)) \/
  (fst e = "s2c_max_compress_level" /\
   exists n, 1 <= n <= 9 /\ snd e = [VStr (format_d n)] /\
     forall a r, PerMessageBzip2Offer.parse_loop [e] a r = Ok (a, n)).
Proof.
  intros H.
  destruct e as [p [|val [|? ?]]]; try discriminate.
  cbn [offer_param_ok] in H. cbn [fst snd PerMessageBzip2Offer.parse_loop length Nat.ltb Nat.leb].
  destruct (String.eqb_spec p "c2s_max_compress_level") as [->|Hp].
  - left. split; [reflexivity|]. intros a r.
    change ("c2s_max_compress_level" =? "s2c_max_compress_level")%string
      with false in H.
    rewrite andb_false_l, orb_false_r, andb_true_l in H.
    unfold py_ne. now rewrite H.
  - rewrite andb_false_l, orb_false_l in H. apply andb_true_iff in H as [Hq H].
    apply String.eqb_eq in Hq; subst p. right. split; [reflexivity|].
    destruct (level_literal_value val H) as [n [Hn [-> Hint]]].
    exists n. repeat split; try lia. intros a r.
    change ("s2c_max_compress_level" =? "s2c_max_compress_level")%string with true.
    cbv iota. now rewrite H, Hint.
Qed.

Lemma response_step_cases (e : string * list pyval) :
  response_param_ok e = true ->
  exists n, 1 <= n <= 9 /\ snd e = [VStr (format_d n)] /\
    ((fst e = "c2s_max_compress_level" /\
      forall c s, PerMessageBzip2Response.parse_loop [e] c s = Ok (n, s)) \/
     (fst e = "s2c_max_compress_level" /\
      forall c s, PerMessageBzip2Response.parse_loop [e] c s = Ok (c, n))).
Proof.
  intros H. destruct e as [p [|val [|? ?]]]; try discriminate.
  cbn [response_param_ok] in H. apply andb_true_iff in H as [Hp H].
  destruct (level_literal_value val H) as [n [Hn [-> Hint]]].
  exists n. repeat split; try lia.
  cbn [fst snd PerMessageBzip2Response.parse_loop length Nat.ltb Nat.leb].
  destruct (String.eqb p "c2s_max_compress_level") eqn:Hc.
  - left. split; [now apply String.eqb_eq|]. intros c s. now rewrite H, Hint.
  - rewrite orb_false_l in Hp. apply String.eqb_eq in Hp; subst p.
    right. split; [reflexivity|]. intros c s.
    change ("s2c_max_compress_level" =? "s2c_max_compress_level")%string with true.
    cbv iota. now rewrite H, Hint.
Qed.

(** A parameter at which an iteration ends normally is acceptable. *)
Lemma offer_step_ok_inv (e : string * list pyval) (a : bool) (r : Z) (st : bool * Z) :
  PerMessageBzip2Offer.parse_loop [e] a r = Ok st -> offer_param_ok e = true.
Proof.
  intros H. destruct (offer_param_ok e) eqn:Hok; [reflexivity|].
  destruct (overlong e) eqn:Hlen.
  - destruct e as [p vals]. unfold overlong in Hlen; cbn [snd] in Hlen.
    cbn [PerMessageBzip2Offer.parse_loop] in H. now rewrite Hlen in H.
  - destruct (offer_loop_rejects e Hlen Hok [] a r) as [err [He _]]. congruence.
Qed.

Lemma response_step_ok_inv (e : string * list pyval) (c s : Z) (st : Z * Z) :
  PerMessageBzip2Response.parse_loop [e] c s = Ok st -> response_param_ok e = true.
Proof.
  intros H. destruct (response_param_ok e) eqn:Hok; [reflexivity|].
  destruct (overlong e) eqn:Hlen.
  - destruct e as [p vals]. unfold overlong in Hlen; cbn [snd] in Hlen.
    cbn [PerMessageBzip2Response.parse_loop] in H. now rewrite Hlen in H.
  - destruct (response_loop_rejects e Hlen Hok [] c s) as [err [He _]]. congruence.
Qed.

Lemma format_d_level_inj (n m : Z) :
  1 <= n <= 9 -> 1 <= m <= 9 -> format_d n = format_d m -> n = m.
Proof.
  intros Hn Hm E. pose proof (py_int_format_d n Hn) as H1.
  rewrite E, (py_int_format_d m Hm) in H1. congruence.
Qed.

(** ** Which mappings are accepted *)

Lemma offer_loop_accepts (params : params_t) :
  forallb offer_param_ok params = true ->
  forall a r, 0 <= r <= 9 ->
    exists a' r', PerMessageBzip2Offer.parse_loop params a r = Ok (a', r')
                  /\ 0 <= r' <= 9.
Proof.
  induction params as [|e rest IH]; intros H a r Hr.
  - now exists a, r.
  - cbn [forallb] in H. apply andb_true_iff in H as [He Hrest].
    rewrite offer_loop_cons.
    destruct (offer_step_cases e He) as [[_ Hs]|[_ [n [Hn [_ Hs]]]]];
      rewrite Hs; cbn [bind fst snd]; apply IH; trivial; lia.
Qed.

Lemma response_loop_accepts (params : params_t) :
  forallb response_param_ok params = true ->
  forall c s, exists c' s',
    PerMessageBzip2Response.parse_loop params c s = Ok (c', s').
Proof.
  induction params as [|e rest IH]; intros H c s.
  - now exists c, s.
  - cbn [forallb] in H. apply andb_true_iff in H as [He Hrest].
    rewrite response_loop_cons.
    destruct (response_step_cases e He) as [n [_ [_ [[_ Hs]|[_ Hs]]]]];
      rewrite Hs; cbn [bind fst snd]; now apply IH.
Qed.

Lemma offer_loop_ok_all (params : params_t) :
  forall a r st,
    PerMessageBzip2Offer.parse_loop params a r = Ok st ->
    forallb offer_param_ok params = true.
Proof.
  induction params as [|e rest IH]; intros a r st H; [reflexivity|].
  rewrite offer_loop_cons in H.
  destruct (PerMessageBzip2Offer.parse_loop [e] a r) as [[a1 r1]|] eqn:E;
    [|discriminate].
  cbn [bind fst snd] in H. cbn [forallb].
  now rewrite (offer_step_ok_inv e a r _ E), (IH _ _ _ H).
Qed.

Lemma response_loop_ok_all (params : params_t) :
  forall c s st,
    PerMessageBzip2Response.parse_loop params c s = Ok st ->
    forallb response_param_ok params = true.
Proof.
  induction params as [|e rest IH]; intros c s st H; [reflexivity|].
  rewrite response_loop_cons in H.
  destruct (PerMessageBzip2Response.parse_loop [e] c s) as [[c1 s1]|] eqn:E;
    [|discriminate].
  cbn [bind fst snd] in H. cbn [forallb].
  now rewrite (response_step_ok_inv e c s _ E), (IH _ _ _ H).
Qed.

(** X1: [Offer.parse] returns an Offer exactly on the mappings all of
    whose parameters are acceptable: [c2s_max_compress_level] with the
    single value [True], or [s2c_max_compress_level] with a single value
    among ["1"] .. ["9"]; [Response.parse] returns a Response exactly on
    the mappings all of whose parameters are one of the two names with a
    single value among ["1"] .. ["9"].  The empty mapping is among
    them. *)
Theorem parse_accepts_iff :
  forall params : params_t,
    ((exists o, PerMessageBzip2Offer.parse params = Ok o)
     <-> forallb offer_param_ok params = true) /\
    ((exists r, PerMessageBzip2Response.parse params = Ok r)
     <-> forallb response_param_ok params = true).
Proof.
  intros params.
  unfold PerMessageBzip2Offer.parse, PerMessageBzip2Response.parse. split; split.
  - intros [o H].
    destruct (PerMessageBzip2Offer.parse_loop params false 0) as [st|] eqn:E;
      [|discriminate].
    now apply (offer_loop_ok_all params false 0 st).
  - intros H.
    destruct (offer_loop_accepts params H false 0) as [a [r [-> Hr]]]; [lia|].
    cbn [bind fst snd]. unfold PerMessageBzip2Offer.init.
    destruct (Z.eqb_spec r 0) as [->|Hz]; [now eexists|].
    rewrite (proj2 (permissible_iff r)) by lia. now eexists.
  - intros [r H].
    destruct (PerMessageBzip2Response.parse_loop params 0 0) as [st|] eqn:E;
      [|discriminate].
    now apply (response_loop_ok_all params 0 0 st).
  - intros H.
    destruct (response_loop_accepts params H 0 0) as [c [s ->]]. now eexists.
Qed.

Lemma parse_accepts_iff_witness :
  (exists o, PerMessageBzip2Offer.parse
               [("s2c_max_compress_level", [VStr "2"]);
                ("c2s_max_compress_level", [VBool true])] = Ok o) /\
  forallb response_param_ok [] = true.
Proof.
  split.
  - apply (proj1 (parse_accepts_iff _)). reflexivity.
  - apply (proj2 (parse_accepts_iff [])). now exists (PerMessageBzip2Response.mk 0 0).
Defined.

(** ** What the returned object holds *)

Lemma offer_loop_fields (params : params_t) :
  forall a r a' r',
    PerMessageBzip2Offer.parse_loop params a r = Ok (a', r') ->
    (a' = true <-> a = true \/ In "c2s_max_compress_level" (map fst params)) /\
    (~ In "s2c_max_compress_level" (map fst params) -> r' = r) /\
    (NoDup (map fst params) ->
     forall n, 1 <= n <= 9 ->
       In ("s2c_max_compress_level", [VStr (format_d n)]) params -> r' = n).
Proof.
  induction params as [|e rest IH]; intros a r a' r' H.
  - injection H as <- <-. cbn. intuition.
  - rewrite offer_loop_cons in H.
    destruct (PerMessageBzip2Offer.parse_loop [e] a r) as [[a1 r1]|] eqn:E;
      [|discriminate].
    cbn [bind fst snd] in H.
    destruct (IH _ _ _ _ H) as [IH1 [IH2 IH3]].
    pose proof (offer_step_ok_inv e a r _ E) as He.
    destruct (offer_step_cases e He) as [[Hk Hs]|[Hk [m [Hm [Hv Hs]]]]];
      rewrite Hs in E; injection E as <- <-; cbn [map In]; rewrite Hk.
    + split; [|split].
      * split; [now right; left | intros _; apply IH1; now left].
      * intros Hn. apply IH2. intros Hin; apply Hn; now right.
      * intros Hnd n Hn [He'|Hin].
        -- subst e. discriminate.
        -- inversion Hnd; subst. now apply IH3.
    + split; [|split].
      * rewrite IH1. split; [intros [?|?]; [now left | now right; right]|].
        intros [?|[?|?]]; [now left | discriminate | now right].
      * intros Hn. elim Hn. now left.
      * intros Hnd n Hn Hin. inversion Hnd as [|? ? Hnotin Hnd']; subst.
        rewrite (IH2 Hnotin).
        destruct Hin as [He'|Hin].
        -- subst e. cbn [snd] in Hv. injection Hv as Hv.
           symmetry. now apply format_d_level_inj.
        -- elim Hnotin. now apply (in_map fst) in Hin.
Qed.

Lemma response_loop_fields (params : params_t) :
  forall c s c' s',
    PerMessageBzip2Response.parse_loop params c s = Ok (c', s') ->
    (~ In "c2s_max_compress_level" (map fst params) -> c' = c) /\
    (~ In "s2c_max_compress_level" (map fst params) -> s' = s) /\
    (NoDup (map fst params) ->
     forall n, 1 <= n <= 9 ->
       (In ("c2s_max_compress_level", [VStr (format_d n)]) params -> c' = n) /\
       (In ("s2c_max_compress_level", [VStr (format_d n)]) params -> s' = n)).
Proof.
  induction params as [|e rest IH]; intros c s c' s' H.
  - injection H as <- <-. cbn. intuition.
  - rewrite response_loop_cons in H.
    destruct (PerMessageBzip2Response.parse_loop [e] c s) as [[c1 s1]|] eqn:E;
      [|discriminate].
    cbn [bind fst snd] in H.
    destruct (IH _ _ _ _ H) as [IH1 [IH2 IH3]].
    pose proof (response_step_ok_inv e c s _ E) as He.
    destruct (response_step_cases e He) as [m [Hm [Hv [[Hk Hs]|[Hk Hs]]]]];
      rewrite Hs in E; injection E as <- <-; cbn [map In]; rewrite Hk.
    + split; [|split].
      * intros Hn. elim Hn. now left.
      * intros Hn. apply IH2. intros Hin; apply Hn; now right.
      * intros Hnd n Hn. inversion Hnd as [|? ? Hnotin Hnd']; subst.
        split; intros [He'|Hin].
        -- subst e. cbn [snd] in Hv. injection Hv as Hv.
           rewrite (IH1 Hnotin). symmetry. now apply format_d_level_inj.
        -- elim Hnotin. now apply (in_map fst) in Hin.
        -- subst e. discriminate.
        -- now apply (IH3 Hnd' n Hn).
    + split; [|split].
      * intros Hn. apply IH1. intros Hin; apply Hn; now right.
      * intros Hn. elim Hn. now left.
      * intros Hnd n Hn. inversion Hnd as [|? ? Hnotin Hnd']; subst.
        split; intros [He'|Hin].
        -- subst e. discriminate.
        -- now apply (IH3 Hnd' n Hn).
        -- subst e. cbn [snd] in Hv. injection Hv as Hv.
           rewrite (IH2 Hnotin). symmetry. now apply format_d_level_inj.
        -- elim Hnotin. now apply (in_map fst) in Hin.
Qed.

(** X2: the Offer that [parse] returns has [acceptMaxCompressLevel]
    true exactly when [c2s_max_compress_level] is a key of the mapping;
    its [requestMaxCompressLevel] is 0 when [s2c_max_compress_level] is no
    key, is [n] when that key holds the numeral of [n] (keys being
    distinct, as in a dictionary), and is in 0..9 in every case, so the
    constructor's own test cannot fail behind [parse]. *)
Theorem offer_parse_fields :
  forall (params : params_t) (o : PerMessageBzip2Offer.t),
    PerMessageBzip2Offer.parse params = Ok o ->
    (PerMessageBzip2Offer.acceptMaxCompressLevel o = true
     <-> In "c2s_max_compress_level" (map fst params)) /\
    (~ In "s2c_max_compress_level" (map fst params) ->
     PerMessageBzip2Offer.requestMaxCompressLevel o = 0) /\
    (NoDup (map fst params) ->
     forall n, 1 <= n <= 9 ->
       In ("s2c_max_compress_level", [VStr (format_d n)]) params ->
       PerMessageBzip2Offer.requestMaxCompressLevel o = n) /\
    0 <= PerMessageBzip2Offer.requestMaxCompressLevel o <= 9.
Proof.
  intros params o. unfold PerMessageBzip2Offer.parse.
  destruct (PerMessageBzip2Offer.parse_loop params false 0) as [[a r]|] eqn:E;
    [|discriminate].
  cbn [bind fst snd]. intros H.
  apply offer_init_ok in H as [b [[= <-] [-> Hr]]].
  destruct (offer_loop_fields params _ _ _ _ E) as [H1 [H2 H3]].
  cbn [PerMessageBzip2Offer.acceptMaxCompressLevel
       PerMessageBzip2Offer.requestMaxCompressLevel].
  split; [|split; [|split]]; trivial.
  rewrite H1. split; [intros [?|?]; [discriminate | trivial] | now right].
Qed.

Lemma offer_parse_fields_witness :
  PerMessageBzip2Offer.requestMaxCompressLevel
    (PerMessageBzip2Offer.mk true 0) = 0.
Proof.
  destruct (offer_parse_fields [("c2s_max_compress_level", [VBool true])]
              (PerMessageBzip2Offer.mk true 0) eq_refl) as [_ [H _]].
  apply H. cbn. intros [H0|[]]. discriminate.
Defined.

(** X3: the Response that [parse] returns has 0 in the field of a name
    that is no key of the mapping, and [n] in the field of a name whose
    value is the numeral of [n] (keys being distinct). *)
Theorem response_parse_fields :
  forall (params : params_t) (r : PerMessageBzip2Response.t),
    PerMessageBzip2Response.parse params = Ok r ->
    (~ In "c2s_max_compress_level" (map fst params) ->
     PerMessageBzip2Response.c2s_max_compress_level r = 0) /\
    (~ In "s2c_max_compress_level" (map fst params) ->
     PerMessageBzip2Response.s2c_max_compress_level r = 0) /\
    (NoDup (map fst params) ->
     forall n, 1 <= n <= 9 ->
       (In ("c2s_max_compress_level", [VStr (format_d n)]) params ->
        PerMessageBzip2Response.c2s_max_compress_level r = n) /\
       (In ("s2c_max_compress_level", [VStr (format_d n)]) params ->
        PerMessageBzip2Response.s2c_max_compress_level r = n)).
Proof.
  intros params r. unfold PerMessageBzip2Response.parse.
  destruct (PerMessageBzip2Response.parse_loop params 0 0) as [[c s]|] eqn:E;
    [|discriminate].
  cbn [bind fst snd]. intros [= <-].
  exact (response_loop_fields params _ _ _ _ E).
Qed.

Lemma response_parse_fields_witness :
  PerMessageBzip2Response.c2s_max_compress_level
    (PerMessageBzip2Response.mk 0 6) = 0.
Proof.
  destruct (response_parse_fields [("s2c_max_compress_level", [VStr "6"])]
              (PerMessageBzip2Response.mk 0 6) eq_refl) as [H _].
  apply H. cbn. intros [H0|[]]. discriminate.
Defined.

(** ** The iteration order *)

(** A loop that handles one parameter after the other, and in which two
    parameters of different names can be exchanged, gives the same result
    on every order of a mapping with distinct keys. *)
Section LoopOrder.

Variable S : Type.
Variable loop : params_t -> S -> result S.

Hypothesis loop_cons :
  forall e rest s, loop (e :: rest) s = (s1 <- loop [e] s ;; loop rest s1).
Hypothesis loop_swap :
  forall x y s s',
    fst x <> fst y ->
    (s1 <- loop [x] s ;; loop [y] s1) = Ok s' ->
    (s1 <- loop [y] s ;; loop [x] s1) = Ok s'.

Lemma loop_permutation (l l' : params_t) :
  Permutation l l' -> NoDup (map fst l) ->
  forall s s', loop l s = Ok s' -> loop l' s = Ok s'.
Proof.
  induction 1 as [|x l l' Hp IH|x y l|l l' l'' Hp1 IH1 Hp2 IH2];
    intros Hnd s s' H.
  - exact H.
  - rewrite loop_cons in H |- *. inversion Hnd; subst.
    destruct (loop [x] s) as [s1|]; [|discriminate]. cbn [bind] in *.
    now apply IH.
  - assert (fst y <> fst x) as Hxy
      by (inversion Hnd as [|? ? Hn _]; subst; intros E; apply Hn; left; now rewrite E).
    rewrite (loop_cons y) in H.
    destruct (loop [y] s) as [s1|] eqn:E1; [|discriminate]. cbn [bind] in H.
    rewrite (loop_cons x) in H.
    destruct (loop [x] s1) as [s2|] eqn:E2; [|discriminate]. cbn [bind] in H.
    assert ((t <- loop [x] s ;; loop [y] t) = Ok s2) as Hs.
    { apply loop_swap; [exact Hxy|]. now rewrite E1. }
    rewrite (loop_cons x).
    destruct (loop [x] s) as [t|]; [|discriminate]. cbn [bind] in Hs |- *.
    rewrite (loop_cons y). now rewrite Hs.
  - apply IH2; [|now apply IH1].
    apply (Permutation_NoDup (Permutation_map fst Hp1) Hnd).
Qed.

End LoopOrder.

Lemma offer_loop_permutation (l l' : params_t) :
  Permutation l l' -> NoDup (map fst l) ->
  forall st st',
    PerMessageBzip2Offer.parse_loop l (fst st) (snd st) = Ok st' ->
    PerMessageBzip2Offer.parse_loop l' (fst st) (snd st) = Ok st'.
Proof.
  apply (loop_permutation (bool * Z)
           (fun l st => PerMessageBzip2Offer.parse_loop l (fst st) (snd st))).
  - intros e rest [a r]. cbn [fst snd]. apply offer_loop_cons.
  - intros x y [a r] st' Hxy. cbn [fst snd].
    destruct (PerMessageBzip2Offer.parse_loop [x] a r) as [[a1 r1]|] eqn:Ex;
      [|discriminate].
    cbn [bind fst snd]. intros Ey.
    pose proof (offer_step_ok_inv x a r _ Ex) as Hx.
    pose proof (offer_step_ok_inv y a1 r1 _ Ey) as Hy.
    destruct (offer_step_cases x Hx) as [[Kx Sx]|[Kx [n [_ [_ Sx]]]]];
      destruct (offer_step_cases y Hy) as [[Ky Sy]|[Ky [m [_ [_ Sy]]]]];
      try (elim Hxy; congruence);
      rewrite Sx in Ex; rewrite Sy in Ey |- *; cbn [bind fst snd];
      rewrite Sx; congruence.
Qed.

Lemma response_loop_permutation (l l' : params_t) :
  Permutation l l' -> NoDup (map fst l) ->
  forall st st',
    PerMessageBzip2Response.parse_loop l (fst st) (snd st) = Ok st' ->
    PerMessageBzip2Response.parse_loop l' (fst st) (snd st) = Ok st'.
Proof.
  apply (loop_permutation (Z * Z)
           (fun l st => PerMessageBzip2Response.parse_loop l (fst st) (snd st))).
  - intros e rest [c s]. cbn [fst snd]. apply response_loop_cons.
  - intros x y [c s] st' Hxy. cbn [fst snd].
    destruct (PerMessageBzip2Response.parse_loop [x] c s) as [[c1 s1]|] eqn:Ex;
      [|discriminate].
    cbn [bind fst snd]. intros Ey.
    pose proof (response_step_ok_inv x c s _ Ex) as Hx.
    pose proof (response_step_ok_inv y c1 s1 _ Ey) as Hy.
    destruct (response_step_cases x Hx) as [n [_ [_ [[Kx Sx]|[Kx Sx]]]]];
      destruct (response_step_cases y Hy) as [m [_ [_ [[Ky Sy]|[Ky Sy]]]]];
      try (elim Hxy; congruence);
      rewrite Sx in Ex; rewrite Sy in Ey |- *; cbn [bind fst snd];
      rewrite Sx; congruence.
Qed.

(** X4: over a mapping with distinct keys, what [Offer.parse] and
    [Response.parse] return does not depend on the order in which the
    mapping is iterated: when the parse of one order returns an object,
    the parse of every other order returns the same object. *)
Theorem parse_order_independent :
  forall params params' : params_t,
    NoDup (map fst params) -> Permutation params params' ->
    (forall o, PerMessageBzip2Offer.parse params = Ok o ->
               PerMessageBzip2Offer.parse params' = Ok o) /\
    (forall r, PerMessageBzip2Response.parse params = Ok r ->
               PerMessageBzip2Response.parse params' = Ok r).
Proof.
  intros params params' Hnd Hp.
  unfold PerMessageBzip2Offer.parse, PerMessageBzip2Response.parse. split.
  - intros o.
    destruct (PerMessageBzip2Offer.parse_loop params false 0) as [st|] eqn:E;
      [|discriminate].
    pose proof (offer_loop_permutation _ _ Hp Hnd (false, 0) st E) as E'.
    cbn [fst snd] in E'. now rewrite E'.
  - intros r.
    destruct (PerMessageBzip2Response.parse_loop params 0 0) as [st|] eqn:E;
      [|discriminate].
    pose proof (response_loop_permutation _ _ Hp Hnd (0, 0) st E) as E'.
    cbn [fst snd] in E'. now rewrite E'.
Qed.

Lemma parse_order_independent_witness :
  PerMessageBzip2Response.parse
    [("s2c_max_compress_level", [VStr "8"]); ("c2s_max_compress_level", [VStr "2"])]
  = Ok (PerMessageBzip2Response.mk 2 8).
Proof.
  assert (NoDup (map fst [("c2s_max_compress_level", [VStr "2"]);
                          ("s2c_max_compress_level", [VStr "8"])])) as Hnd.
  { cbn. repeat constructor; cbn; intuition discriminate. }
  apply (proj2 (parse_order_independent _ _ Hnd (perm_swap _ _ _))).
  reflexivity.
Defined.

(** ** The error of the first rejected parameter *)

Lemma offer_parse_behind (pre : params_t) :
  forallb offer_param_ok pre = true ->
  exists a r, forall rest,
    PerMessageBzip2Offer.parse (pre ++ rest)%list
    = (st <- PerMessageBzip2Offer.parse_loop rest a r ;;
       PerMessageBzip2Offer.init (VBool (fst st)) (snd st)).
Proof.
  intros H.
  assert (Forall (fun e => offer_param_ok e = true) pre) as HF
    by (apply Forall_forall; now apply forallb_forall).
  destruct (offer_loop_prefix pre HF false 0) as [a [r Hl]].
  exists a, r. intros rest. unfold PerMessageBzip2Offer.parse. now rewrite Hl.
Qed.

Lemma response_parse_behind (pre : params_t) :
  forallb response_param_ok pre = true ->
  exists c s, forall rest,
    PerMessageBzip2Response.parse (pre ++ rest)%list
    = (st <- PerMessageBzip2Response.parse_loop rest c s ;;
       PerMessageBzip2Response.init (fst st) (snd st)).
Proof.
  intros H.
  assert (Forall (fun e => response_param_ok e = true) pre) as HF
    by (apply Forall_forall; now apply forallb_forall).
  destruct (response_loop_prefix pre HF 0 0) as [c [s Hl]].
  exists c, s. intros rest. unfold PerMessageBzip2Response.parse. now rewrite Hl.
Qed.

(** X5: a parameter whose name is neither [c2s_max_compress_level] nor
    [s2c_max_compress_level], with a single value and iterated behind
    acceptable parameters, ends [Offer.parse] and [Response.parse] with
    [UnknownParameterError] for that name, whatever its value is and
    whatever follows it. *)
Theorem unknown_parameter_error :
  forall (pre post : params_t) (p : string) (val : pyval),
    p <> "c2s_max_compress_level" -> p <> "s2c_max_compress_level" ->
    (forallb offer_param_ok pre = true ->
     PerMessageBzip2Offer.parse (pre ++ (p, [val]) :: post)%list
     = Err (UnknownParameterError p)) /\
    (forallb response_param_ok pre = true ->
     PerMessageBzip2Response.parse (pre ++ (p, [val]) :: post)%list
     = Err (UnknownParameterError p)).
Proof.
  intros pre post p val Hc Hs.
  apply String.eqb_neq in Hc, Hs. split; intros Hpre.
  - destruct (offer_parse_behind pre Hpre) as [a [r ->]].
    cbn [PerMessageBzip2Offer.parse_loop length Nat.ltb Nat.leb].
    now rewrite Hc, Hs.
  - destruct (response_parse_behind pre Hpre) as [c [s ->]].
    cbn [PerMessageBzip2Response.parse_loop length Nat.ltb Nat.leb].
    now rewrite Hc, Hs.
Qed.

Lemma unknown_parameter_error_witness :
  PerMessageBzip2Offer.parse
    [("c2s_max_compress_level", [VBool true]); ("s2c_max_window_bits", [VStr "9"])]
  = Err (UnknownParameterError "s2c_max_window_bits") /\
  PerMessageBzip2Response.parse
    [("c2s_max_compress_level", [VStr "1"]); ("s2c_max_window_bits", [VStr "9"])]
  = Err (UnknownParameterError "s2c_max_window_bits").
Proof.
  split.
  - apply (proj1 (unknown_parameter_error
                    [("c2s_max_compress_level", [VBool true])] []
                    "s2c_max_window_bits" (VStr "9")
                    ltac:(discriminate) ltac:(discriminate))).
    reflexivity.
  - apply (proj2 (unknown_parameter_error
                    [("c2s_max_compress_level", [VStr "1"])] []
                    "s2c_max_window_bits" (VStr "9")
                    ltac:(discriminate) ltac:(discriminate))).
    reflexivity.
Defined.

(** X6: a name that is mapped to the empty sequence of values, iterated
    behind acceptable parameters, ends both parsers with [IndexError]:
    the first value is taken before the name is compared, so this holds
    for every name, known or not. *)
Theorem empty_values_index_error :
  forall (pre post : params_t) (p : string),
    (forallb offer_param_ok pre = true ->
     PerMessageBzip2Offer.parse (pre ++ (p, []) :: post)%list = Err IndexError) /\
    (forallb response_param_ok pre = true ->
     PerMessageBzip2Response.parse (pre ++ (p, []) :: post)%list = Err IndexError).
Proof.
  intros pre post p. split; intros Hpre.
  - now destruct (offer_parse_behind pre Hpre) as [a [r ->]].
  - now destruct (response_parse_behind pre Hpre) as [c [s ->]].
Qed.

Lemma empty_values_index_error_witness :
  PerMessageBzip2Offer.parse
    [("s2c_max_compress_level", [VStr "1"]); ("c2s_max_compress_level", [])]
  = Err IndexError.
Proof.
  apply (proj1 (empty_values_index_error
                  [("s2c_max_compress_level", [VStr "1"])] []
                  "c2s_max_compress_level")).
  reflexivity.
Defined.

(** X7: the two forms of a parameter are not interchangeable.  Behind
    acceptable parameters, [Offer.parse] refuses the flag
    [c2s_max_compress_level] when it carries a string value, and each
    leveled parameter of either parser is refused when it is given as a
    bare flag (the value [True]); the error is
    [InvalidParameterValueError] with the value and the name. *)
Theorem flag_and_level_forms :
  forall (pre post : params_t),
    (forallb offer_param_ok pre = true ->
     (forall s,
        PerMessageBzip2Offer.parse
          (pre ++ ("c2s_max_compress_level", [VStr s]) :: post)%list
        = Err (InvalidParameterValueError (VStr s) "c2s_max_compress_level")) /\
     PerMessageBzip2Offer.parse
       (pre ++ ("s2c_max_compress_level", [VBool true]) :: post)%list
     = Err (InvalidParameterValueError (VBool true) "s2c_max_compress_level")) /\
    (forallb response_param_ok pre = true ->
     PerMessageBzip2Response.parse
       (pre ++ ("c2s_max_compress_level", [VBool true]) :: post)%list
     = Err (InvalidParameterValueError (VBool true) "c2s_max_compress_level") /\
     PerMessageBzip2Response.parse
       (pre ++ ("s2c_max_compress_level", [VBool true]) :: post)%list
     = Err (InvalidParameterValueError (VBool true) "s2c_max_compress_level")).
Proof.
  intros pre post. split; intros Hpre.
  - destruct (offer_parse_behind pre Hpre) as [a [r H]].
    split; [intros s|]; now rewrite H.
  - destruct (response_parse_behind pre Hpre) as [c [s H]].
    split; now rewrite H.
Qed.

Lemma flag_and_level_forms_witness :
  PerMessageBzip2Offer.parse
    [("s2c_max_compress_level", [VStr "5"]); ("c2s_max_compress_level", [VStr "5"])]
  = Err (InvalidParameterValueError (VStr "5") "c2s_max_compress_level") /\
  PerMessageBzip2Response.parse [("c2s_max_compress_level", [VBool true])]
  = Err (InvalidParameterValueError (VBool true) "c2s_max_compress_level").
Proof.
  split.
  - apply (proj1 (flag_and_level_forms
                    [("s2c_max_compress_level", [VStr "5"])] [])); reflexivity.
  - apply (proj2 (flag_and_level_forms [] [])); reflexivity.
Defined.

(** * Further properties of the constructors and of the negotiation *)

(** X8: the constructor of an Offer succeeds exactly when
    [acceptMaxCompressLevel] is a boolean and [requestMaxCompressLevel]
    is 0 or one of 1..9, and then stores the two as given; every other
    argument ends in [ConstructionError].  The integer 1, although equal
    to [True], is not of type [bool] and is refused. *)
Theorem offer_init_outcomes :
  forall (a : pyval) (r : Z),
    (forall b, a = VBool b -> 0 <= r <= 9 ->
       PerMessageBzip2Offer.init a r = Ok (PerMessageBzip2Offer.mk b r)) /\
    ((forall b, a <> VBool b) ->
       PerMessageBzip2Offer.init a r = Err ConstructionError) /\
    (r < 0 \/ 9 < r ->
       PerMessageBzip2Offer.init a r = Err ConstructionError) /\
    (forall o, PerMessageBzip2Offer.init a r = Ok o ->
       exists b, a = VBool b /\ o = PerMessageBzip2Offer.mk b r /\ 0 <= r <= 9) /\
    PerMessageBzip2Offer.init (VInt 1) r = Err ConstructionError.
Proof.
  intros a r. unfold PerMessageBzip2Offer.init.
  split; [|split; [|split; [|split]]].
  - intros b -> Hr. destruct (Z.eqb_spec r 0) as [->|Hz]; [reflexivity|].
    now rewrite (proj2 (permissible_iff r)) by lia.
  - intros H. destruct a as [b| |]; [now elim (H b) | reflexivity | reflexivity].
  - intros Hr. destruct a; try reflexivity.
    assert ((r =? 0) = false) as -> by lia.
    destruct (permissible r) eqn:E; [apply permissible_iff in E; lia | reflexivity].
  - intros o. apply offer_init_ok.
  - reflexivity.
Qed.

Lemma offer_init_outcomes_witness :
  PerMessageBzip2Offer.init (VBool false) 9 = Ok (PerMessageBzip2Offer.mk false 9) /\
  PerMessageBzip2Offer.init (VStr "true") 0 = Err ConstructionError /\
  PerMessageBzip2Offer.init (VBool true) 10 = Err ConstructionError.
Proof.
  destruct (offer_init_outcomes (VBool false) 9) as [H1 _].
  destruct (offer_init_outcomes (VStr "true") 0) as [_ [H2 _]].
  destruct (offer_init_outcomes (VBool true) 10) as [_ [_ [H3 _]]].
  split; [|split].
  - apply H1; [reflexivity | lia].
  - apply H2. intros b; discriminate.
  - apply H3. lia.
Defined.

(** X9: what the server accepts is what the client reads.  For an
    Accept constructed over a constructed Offer, [Response.parse], applied
    to the parameter mapping of the Accept's extension string in either
    iteration order, returns the Response whose [c2s_max_compress_level]
    is the Accept's requested level and whose [s2c_max_compress_level] is
    the Offer's; the processor the client makes from that Response and the
    processor the server makes from the Accept have the same two levels.
    (The step from the string to the mapping is the header parser
    [parseExtension], modelled from the specification.) *)
Theorem accept_wire_response :
  forall (a : pyval) (r r' : Z)
         (offer : PerMessageBzip2Offer.t) (accept : PerMessageBzip2Accept.t),
    PerMessageBzip2Offer.init a r = Ok offer ->
    PerMessageBzip2Accept.init offer r' = Ok accept ->
    let header := PerMessageBzip2Accept.getExtensionString accept in
    fst (parseExtension header) = EXTENSION_NAME /\
    forall params : params_t,
      Permutation (snd (parseExtension header)) params ->
      PerMessageBzip2Response.parse params = Ok (PerMessageBzip2Response.mk r' r) /\
      forall bz2 : Bz2,
        let client := PerMessageBzip2.createFromResponse bz2 false
                        (PerMessageBzip2Response.mk r' r) in
        let server := PerMessageBzip2.createFromAccept bz2 true accept in
        PerMessageBzip2.s2c_max_compress_level client
        = PerMessageBzip2.s2c_max_compress_level server /\
        PerMessageBzip2.c2s_max_compress_level client
        = PerMessageBzip2.c2s_max_compress_level server.
Proof.
  intros a r r' offer accept Ho Ha header; subst header.
  apply offer_init_ok in Ho as [b [_ [-> Hr]]].
  apply accept_init_ok in Ha as [-> Hr'].
  assert (0 <= r' <= 9) as Hr'' by (destruct Hr' as [->|[? _]]; lia). clear Hr'.
  level_cases r Hr; level_cases r' Hr'';
    (split; [reflexivity|]);
    intros params Hp; vm_compute in Hp; iteration_orders Hp;
    (split; [reflexivity | intros bz2; split; reflexivity]).
Qed.

Lemma accept_wire_response_witness :
  PerMessageBzip2Response.parse
    [("c2s_max_compress_level", [VStr "2"]); ("s2c_max_compress_level", [VStr "7"])]
  = Ok (PerMessageBzip2Response.mk 2 7).
Proof.
  apply (accept_wire_response (VBool true) 7 2
           (PerMessageBzip2Offer.mk true 7)
           (PerMessageBzip2Accept.mk (PerMessageBzip2Offer.mk true 7) 2)
           eq_refl eq_refl).
  vm_compute. apply perm_swap.
Defined.

(** * Further properties of the processor *)

Section ProcessorUse.

Variable bz2 : Bz2.

(** X10: without a codec the data methods raise.  On a processor
    without a compressor, so on a new processor and on one whose
    [endCompressMessage] has returned, [compressMessageData] raises
    [AttributeError] and leaves the processor as it is, whatever the
    data; the same holds for [decompressMessageData] on a processor
    without a decompressor, so on a new one and behind
    [endDecompressMessage]. *)
Theorem data_without_codec :
  forall (self : PerMessageBzip2.t bz2) (data : bytes),
    (PerMessageBzip2._compressor self = None ->
     PerMessageBzip2.compressMessageData data self = (Err AttributeError, self)) /\
    (PerMessageBzip2._decompressor self = None ->
     PerMessageBzip2.decompressMessageData data self = (Err AttributeError, self)) /\
    (forall isServer s2c c2s,
       let new := PerMessageBzip2.init bz2 isServer s2c c2s in
       PerMessageBzip2.compressMessageData data new = (Err AttributeError, new) /\
       PerMessageBzip2.decompressMessageData data new = (Err AttributeError, new)) /\
    (forall out self',
       PerMessageBzip2.endCompressMessage self = (Ok out, self') ->
       PerMessageBzip2.compressMessageData data self' = (Err AttributeError, self')) /\
    (let self' := snd (PerMessageBzip2.endDecompressMessage self) in
     PerMessageBzip2.decompressMessageData data self' = (Err AttributeError, self')).
Proof.
  intros self data.
  unfold PerMessageBzip2.compressMessageData, PerMessageBzip2.decompressMessageData.
  split; [|split; [|split; [|split]]].
  - now intros ->.
  - now intros ->.
  - intros isServer s2c c2s. now split.
  - intros out self'. unfold PerMessageBzip2.endCompressMessage.
    destruct (PerMessageBzip2._compressor self) as [c|]; [|discriminate].
    destruct (flush bz2 c) as [[d|e] c']; [|discriminate].
    now intros [= _ <-].
  - reflexivity.
Qed.

(** X11: no method changes the role or a level, and no method of one
    direction touches the codec of the other: whatever they return or
    raise, the three send methods leave [_decompressor] and the three
    receive methods leave [_compressor] as they were. *)
Theorem methods_frame :
  forall (self : PerMessageBzip2.t bz2) (data : bytes),
    (forall self',
       self' = snd (PerMessageBzip2.startCompressMessage self) \/
       self' = snd (PerMessageBzip2.compressMessageData data self) \/
       self' = snd (PerMessageBzip2.endCompressMessage self) ->
       same_config self self' /\
       PerMessageBzip2._decompressor self' = PerMessageBzip2._decompressor self) /\
    (forall self',
       self' = snd (PerMessageBzip2.startDecompressMessage self) \/
       self' = snd (PerMessageBzip2.decompressMessageData data self) \/
       self' = snd (PerMessageBzip2.endDecompressMessage self) ->
       same_config self self' /\
       PerMessageBzip2._compressor self' = PerMessageBzip2._compressor self).
Proof.
  intros self data. split; intros self' [-> | [-> | ->]].
  - unfold PerMessageBzip2.startCompressMessage.
    destruct (PerMessageBzip2._isServer self),
             (PerMessageBzip2._compressor self);
      try (now repeat split);
      now destruct (BZ2Compressor bz2 _); repeat split.
  - unfold PerMessageBzip2.compressMessageData.
    destruct (PerMessageBzip2._compressor self) as [c|]; [|now repeat split].
    now destruct (compress bz2 c data); repeat split.
  - unfold PerMessageBzip2.endCompressMessage.
    destruct (PerMessageBzip2._compressor self) as [c|]; [|now repeat split].
    now destruct (flush bz2 c) as [[d|e] c']; repeat split.
  - unfold PerMessageBzip2.startDecompressMessage.
    now destruct (PerMessageBzip2._decompressor self); repeat split.
  - unfold PerMessageBzip2.decompressMessageData.
    destruct (PerMessageBzip2._decompressor self) as [d|]; [|now repeat split].
    now destruct (decompress bz2 d data); repeat split.
  - now repeat split.
Qed.

(** X12: [startDecompressMessage] never raises; on a processor without
    a decompressor it stores a new [BZ2Decompressor()], on a processor
    with a decompressor it changes nothing, so a second call keeps the
    decompressor of the first. *)
Theorem startDecompressMessage_spec :
  forall self : PerMessageBzip2.t bz2,
    (PerMessageBzip2._decompressor self = None ->
     PerMessageBzip2.startDecompressMessage self
     = (Ok tt, PerMessageBzip2.set_decompressor (Some (BZ2Decompressor bz2)) self)) /\
    (forall d,
       PerMessageBzip2._decompressor self = Some d ->
       PerMessageBzip2.startDecompressMessage self = (Ok tt, self)) /\
    fst (PerMessageBzip2.startDecompressMessage self) = Ok tt /\
    (let self' := snd (PerMessageBzip2.startDecompressMessage self) in
     PerMessageBzip2.startDecompressMessage self' = (Ok tt, self')).
Proof.
  intros self. unfold PerMessageBzip2.startDecompressMessage at 1 2 3 4.
  split; [|split; [|split]].
  - now intros ->.
  - now intros d ->.
  - now destruct (PerMessageBzip2._decompressor self).
  - unfold PerMessageBzip2.startDecompressMessage.
    destruct (PerMessageBzip2._decompressor self) eqn:E; cbn; [now rewrite E|reflexivity].
Qed.

(** X13: a whole outbound message.  On a processor without a compressor,
    [startCompressMessage], [compressMessageData] and [endCompressMessage]
    in this order feed the data to a compressor newly made at the level of
    the processor's role, return what its [compress] and then its [flush]
    return, and leave the processor exactly as it was before the message:
    nothing of the message's codec is carried into the next one. *)
Theorem send_message_round :
  forall (self : PerMessageBzip2.t bz2) (data out1 out2 : bytes)
         (c0 c1 c2 : Compressor bz2),
    PerMessageBzip2._compressor self = None ->
    BZ2Compressor bz2
      (if PerMessageBzip2._isServer self
       then PerMessageBzip2.s2c_max_compress_level self
       else PerMessageBzip2.c2s_max_compress_level self) = Ok c0 ->
    compress bz2 c0 data = (Ok out1, c1) ->
    flush bz2 c1 = (Ok out2, c2) ->
    exists self1 self2,
      PerMessageBzip2.startCompressMessage self = (Ok tt, self1) /\
      PerMessageBzip2.compressMessageData data self1 = (Ok out1, self2) /\
      PerMessageBzip2.endCompressMessage self2 = (Ok out2, self).
Proof.
  intros self data out1 out2 c0 c1 c2 Hnone Hnew Hc Hf.
  exists (PerMessageBzip2.set_compressor (Some c0) self),
         (PerMessageBzip2.set_compressor (Some c1) self).
  destruct self as [role comp dec s2c c2s]. cbn in Hnone, Hnew. subst comp.
  unfold PerMessageBzip2.startCompressMessage, PerMessageBzip2.compressMessageData,
    PerMessageBzip2.endCompressMessage, PerMessageBzip2.set_compressor.
  cbn [PerMessageBzip2._isServer PerMessageBzip2._compressor
       PerMessageBzip2._decompressor PerMessageBzip2.s2c_max_compress_level
       PerMessageBzip2.c2s_max_compress_level].
  rewrite Hc, Hf. destruct role; now rewrite Hnew.
Qed.

(** X14: a whole inbound message.  On a processor without a
    decompressor, [startDecompressMessage], [decompressMessageData] and
    [endDecompressMessage] in this order return what a new decompressor's
    [decompress] returns or raises, and leave the processor exactly as it
    was before the message, also when the data was refused. *)
Theorem receive_message_round :
  forall (self : PerMessageBzip2.t bz2) (data : bytes),
    PerMessageBzip2._decompressor self = None ->
    exists self1 self2,
      PerMessageBzip2.startDecompressMessage self = (Ok tt, self1) /\
      PerMessageBzip2.decompressMessageData data self1
      = (fst (decompress bz2 (BZ2Decompressor bz2) data), self2) /\
      PerMessageBzip2.endDecompressMessage self2 = (Ok tt, self).
Proof.
  intros self data Hnone.
  exists (PerMessageBzip2.set_decompressor (Some (BZ2Decompressor bz2)) self),
         (PerMessageBzip2.set_decompressor
            (Some (snd (decompress bz2 (BZ2Decompressor bz2) data))) self).
  destruct self as [role comp dec s2c c2s]. cbn in Hnone. subst dec.
  unfold PerMessageBzip2.startDecompressMessage, PerMessageBzip2.decompressMessageData,
    PerMessageBzip2.endDecompressMessage, PerMessageBzip2.set_decompressor.
  cbn [PerMessageBzip2._isServer PerMessageBzip2._compressor
       PerMessageBzip2._decompressor PerMessageBzip2.s2c_max_compress_level
       PerMessageBzip2.c2s_max_compress_level].
  now destruct (decompress bz2 (BZ2Decompressor bz2) data).
Qed.

(** X15: when the library makes a compressor for every level in 1..9,
    [startCompressMessage] succeeds on the processor made from an Accept
    constructed over a constructed Offer and on the processor made from a
    parsed Response, in either role. *)
Theorem negotiated_processor_starts :
  (forall l, 1 <= l <= 9 -> exists c, BZ2Compressor bz2 l = Ok c) ->
  forall isServer : bool,
    (forall a r offer r' accept,
       PerMessageBzip2Offer.init a r = Ok offer ->
       PerMessageBzip2Accept.init offer r' = Ok accept ->
       let p := PerMessageBzip2.createFromAccept bz2 isServer accept in
       exists c, PerMessageBzip2.startCompressMessage p
                 = (Ok tt, PerMessageBzip2.set_compressor (Some c) p)) /\
    (forall params response,
       PerMessageBzip2Response.parse params = Ok response ->
       let p := PerMessageBzip2.createFromResponse bz2 isServer response in
       exists c, PerMessageBzip2.startCompressMessage p
                 = (Ok tt, PerMessageBzip2.set_compressor (Some c) p)).
Proof.
  intros Hlib isServer.
  assert (forall s c, 0 <= s <= 9 -> 0 <= c <= 9 ->
            let p := PerMessageBzip2.init bz2 isServer s c in
            exists k, PerMessageBzip2.startCompressMessage p
                      = (Ok tt, PerMessageBzip2.set_compressor (Some k) p)) as Hinit.
  { intros s c Hs Hc p; subst p.
    unfold PerMessageBzip2.startCompressMessage, PerMessageBzip2.init.
    cbn [PerMessageBzip2._isServer PerMessageBzip2._compressor
         PerMessageBzip2.s2c_max_compress_level
         PerMessageBzip2.c2s_max_compress_level].
    unfold PerMessageBzip2.DEFAULT_COMPRESS_LEVEL.
    destruct isServer.
    - destruct (Hlib (if negb (s =? 0) then s else 9)) as [k ->];
        [destruct (Z.eqb_spec s 0); cbn; lia | now exists k].
    - destruct (Hlib (if negb (c =? 0) then c else 9)) as [k ->];
        [destruct (Z.eqb_spec c 0); cbn; lia | now exists k]. }
  split.
  - intros a r offer r' accept Ho Ha.
    apply offer_init_ok in Ho as [b [_ [-> Hr]]].
    apply accept_init_ok in Ha as [-> Hr'].
    apply Hinit; [exact Hr | destruct Hr' as [->|[? _]]; cbn; lia].
  - intros params response Hp.
    destruct (response_parse_range params response Hp) as [Hc Hs].
    now apply Hinit.
Qed.

End ProcessorUse.

Lemma data_without_codec_witness :
  PerMessageBzip2.compressMessageData [Byte.x2a]
    (PerMessageBzip2.mk (bz2 := Stored.bz2) true None None 9 9)
  = (Err AttributeError, PerMessageBzip2.mk (bz2 := Stored.bz2) true None None 9 9).
Proof.
  apply (proj1 (data_without_codec Stored.bz2 _ [Byte.x2a])). reflexivity.
Defined.

Lemma methods_frame_witness :
  PerMessageBzip2._decompressor
    (snd (PerMessageBzip2.endCompressMessage
            (PerMessageBzip2.mk (bz2 := Stored.bz2) true
               (Some (Stored.mkc 9 [] true)) (Some tt) 9 9)))
  = Some tt.
Proof.
  apply (proj1 (methods_frame Stored.bz2
                  (PerMessageBzip2.mk (bz2 := Stored.bz2) true
                     (Some (Stored.mkc 9 [] true)) (Some tt) 9 9) [])).
  right; right; reflexivity.
Defined.

Lemma startDecompressMessage_spec_witness :
  PerMessageBzip2.startDecompressMessage
    (PerMessageBzip2.mk (bz2 := Stored.bz2) false None None 9 9)
  = (Ok tt, PerMessageBzip2.mk (bz2 := Stored.bz2) false None (Some tt) 9 9).
Proof.
  apply (proj1 (startDecompressMessage_spec Stored.bz2
                  (PerMessageBzip2.mk (bz2 := Stored.bz2) false None None 9 9))).
  reflexivity.
Defined.

Lemma send_message_round_witness :
  exists self1 self2,
    PerMessageBzip2.startCompressMessage
      (PerMessageBzip2.init Stored.bz2 false 0 4) = (Ok tt, self1) /\
    PerMessageBzip2.compressMessageData [Byte.x68; Byte.x69] self1 = (Ok [], self2) /\
    PerMessageBzip2.endCompressMessage self2
    = (Ok [Byte.x68; Byte.x69], PerMessageBzip2.init Stored.bz2 false 0 4).
Proof.
  apply (send_message_round Stored.bz2
           (PerMessageBzip2.init Stored.bz2 false 0 4)
           [Byte.x68; Byte.x69] [] [Byte.x68; Byte.x69]
           (Stored.mkc 4 [] true) (Stored.mkc 4 [Byte.x68; Byte.x69] true)
           (Stored.mkc 4 [] false));
    reflexivity.
Defined.

Lemma receive_message_round_witness :
  exists self1 self2,
    PerMessageBzip2.startDecompressMessage
      (PerMessageBzip2.init Stored.bz2 true 0 0) = (Ok tt, self1) /\
    PerMessageBzip2.decompressMessageData [Byte.x68] self1 = (Ok [Byte.x68], self2) /\
    PerMessageBzip2.endDecompressMessage self2
    = (Ok tt, PerMessageBzip2.init Stored.bz2 true 0 0).
Proof.
  apply (receive_message_round Stored.bz2
           (PerMessageBzip2.init Stored.bz2 true 0 0) [Byte.x68]).
  reflexivity.
Defined.

Lemma negotiated_processor_starts_witness :
  exists c,
    PerMessageBzip2.startCompressMessage
      (PerMessageBzip2.createFromAccept Stored.bz2 true
         (PerMessageBzip2Accept.mk (PerMessageBzip2Offer.mk true 3) 0))
    = (Ok tt,
       PerMessageBzip2.set_compressor (Some c)
         (PerMessageBzip2.createFromAccept Stored.bz2 true
            (PerMessageBzip2Accept.mk (PerMessageBzip2Offer.mk true 3) 0))).
Proof.
  assert (forall l, 1 <= l <= 9 -> exists c, BZ2Compressor Stored.bz2 l = Ok c) as Hlib.
  { intros l Hl. exists (Stored.mkc l [] true).
    change (BZ2Compressor Stored.bz2 l) with (Stored.new l). unfold Stored.new.
    now rewrite (proj2 (Z.leb_le 1 l)), (proj2 (Z.leb_le l 9)) by lia. }
  destruct (negotiated_processor_starts Stored.bz2 Hlib true) as [H _].
  apply (H (VBool true) 3 (PerMessageBzip2Offer.mk true 3) 0
           (PerMessageBzip2Accept.mk (PerMessageBzip2Offer.mk true 3) 0));
    reflexivity.
Defined.

(** * Textual representations *)

Example repr_examples :
  PerMessageBzip2Offer.__repr__ (PerMessageBzip2Offer.mk true 0)
  = "PerMessageBzip2Offer(acceptMaxCompressLevel = True, requestMaxCompressLevel = 0)"
  /\ PerMessageBzip2.__repr__ (PerMessageBzip2.init Stored.bz2 false 3 0)
  = "PerMessageBzip2(isServer = False, s2c_max_compress_level = 3, c2s_max_compress_level = 9)".
Proof. split; reflexivity. Qed.

(** [int] reads back what ["%d"] writes. *)
Lemma py_int_of_format_d (n : Z) : py_int_of_string (format_d n) = Ok n.
Proof.
  unfold py_int_of_string, format_d. rewrite NilZero.isi.
  - now rewrite DecimalZ.of_to.
  - destruct n; cbn; try discriminate.
    intros [= H]. now apply DecimalPos.Unsigned.to_uint_nonnil in H.
  - destruct n; cbn; try discriminate.
    intros [= H]. now apply DecimalPos.Unsigned.to_uint_nonnil in H.
Qed.

Lemma format_d_inj (n m : Z) : format_d n = format_d m -> n = m.
Proof.
  intros E. pose proof (py_int_of_format_d n) as H.
  rewrite E, py_int_of_format_d in H. congruence.
Qed.

Lemma digits_numeral_chars (u : Decimal.uint) (c : ascii) :
  In c (list_ascii_of_string (NilEmpty.string_of_uint u)) ->
  is_numeral_char c = true.
Proof.
  induction u; cbn [NilEmpty.string_of_uint list_ascii_of_string In];
    try (intros [<-|H]; [reflexivity | now apply IHu]).
  intros [].
Qed.

Lemma format_d_chars (n : Z) (c : ascii) :
  In c (list_ascii_of_string (format_d n)) -> is_numeral_char c = true.
Proof.
  unfold format_d. destruct (Z.to_int n) as [u|u];
    cbn [NilZero.string_of_int list_ascii_of_string In].
  - destruct u; try apply digits_numeral_chars.
    cbn. intros [<-|[]]. reflexivity.
  - intros [<-|H]; [reflexivity|]. revert H.
    destruct u; try apply digits_numeral_chars.
    cbn. intros [<-|[]]. reflexivity.
Qed.

(** Two texts that begin with a numeral and go on with the same
    character, which is no character of a numeral, have the same numeral
    and the same rest. *)
Lemma numeral_sep_inj (u v : string) (c : ascii) (t t' : string) :
  (forall x, In x (list_ascii_of_string u) -> is_numeral_char x = true) ->
  (forall x, In x (list_ascii_of_string v) -> is_numeral_char x = true) ->
  is_numeral_char c = false ->
  (u ++ String c t = v ++ String c t') -> u = v /\ t = t'.
Proof.
  revert v. induction u as [|a u IH]; intros [|b v] Hu Hv Hc E; cbn in E.
  - injection E as ->. now split.
  - injection E as -> _. rewrite (Hv b) in Hc; [discriminate | now left].
  - injection E as -> _. rewrite (Hu c) in Hc; [discriminate | now left].
  - injection E as -> E.
    destruct (IH v) as [-> ->]; trivial.
    + intros x Hx. apply Hu. now right.
    + intros x Hx. apply Hv. now right.
    + now split.
Qed.

Lemma format_d_sep_inj (n m : Z) (c : ascii) (t t' : string) :
  is_numeral_char c = false ->
  (format_d n ++ String c t = format_d m ++ String c t') -> n = m /\ t = t'.
Proof.
  intros Hc E.
  destruct (numeral_sep_inj _ _ c t t' (format_d_chars n) (format_d_chars m) Hc E)
    as [H ->].
  split; [now apply format_d_inj | reflexivity].
Qed.

Lemma string_app_assoc (s t u : string) : (s ++ t) ++ u = s ++ t ++ u.
Proof.
  induction s as [|a s IH]; cbn; [reflexivity | now rewrite IH].
Qed.

Lemma append_inj_l (s t t' : string) : s ++ t = s ++ t' -> t = t'.
Proof.
  induction s as [|a s IH]; cbn; [trivial|]. intros [= E]. now apply IH.
Qed.

Lemma format_s_bool_sep_inj (a b : bool) (t t' : string) :
  format_s_bool a ++ String "," t = format_s_bool b ++ String "," t' ->
  a = b /\ t = t'.
Proof.
  destruct a, b; cbn; intros E; try discriminate; injection E as ->; now split.
Qed.

Lemma offer_repr_sep_inj (o o' : PerMessageBzip2Offer.t) (t t' : string) :
  PerMessageBzip2Offer.__repr__ o ++ t = PerMessageBzip2Offer.__repr__ o' ++ t' ->
  o = o' /\ t = t'.
Proof.
  destruct o as [a r], o' as [a' r']. unfold PerMessageBzip2Offer.__repr__.
  cbn [PerMessageBzip2Offer.acceptMaxCompressLevel
       PerMessageBzip2Offer.requestMaxCompressLevel].
  rewrite !string_app_assoc. intros E.
  apply append_inj_l in E.
  apply format_s_bool_sep_inj in E as [-> E].
  apply (append_inj_l " requestMaxCompressLevel = ") in E.
  apply (format_d_sep_inj r r' ")") in E as [-> E]; [|reflexivity].
  now split.
Qed.

(** X16: the textual representation determines the object.  Two Offers
    with the same [__repr__] have the same fields, two Accepts with the
    same [__repr__] have the same offer and the same requested level, and
    two processors with the same [__repr__] have the same role and the
    same two levels (the codecs are not written). *)
Theorem repr_injective :
  (forall o o' : PerMessageBzip2Offer.t,
     PerMessageBzip2Offer.__repr__ o = PerMessageBzip2Offer.__repr__ o' -> o = o') /\
  (forall a a' : PerMessageBzip2Accept.t,
     PerMessageBzip2Accept.__repr__ a = PerMessageBzip2Accept.__repr__ a' -> a = a') /\
  (forall (bz2 : Bz2) (p p' : PerMessageBzip2.t bz2),
     PerMessageBzip2.__repr__ p = PerMessageBzip2.__repr__ p' ->
     PerMessageBzip2._isServer p = PerMessageBzip2._isServer p' /\
     PerMessageBzip2.s2c_max_compress_level p
     = PerMessageBzip2.s2c_max_compress_level p' /\
     PerMessageBzip2.c2s_max_compress_level p
     = PerMessageBzip2.c2s_max_compress_level p').
Proof.
  split; [|split].
  - intros o o' E.
    apply (f_equal (fun s => s ++ "")) in E.
    now apply offer_repr_sep_inj in E.
  - intros [o r] [o' r']. unfold PerMessageBzip2Accept.__repr__.
    cbn [PerMessageBzip2Accept.offer PerMessageBzip2Accept.requestMaxCompressLevel].
    intros E. apply append_inj_l in E.
    apply offer_repr_sep_inj in E as [-> E].
    apply (append_inj_l ", requestMaxCompressLevel = ") in E.
    apply (format_d_sep_inj r r' ")") in E as [-> _]; [|reflexivity].
    reflexivity.
  - intros bz2 p p'. unfold PerMessageBzip2.__repr__.
    generalize (PerMessageBzip2._isServer p), (PerMessageBzip2._isServer p'),
      (PerMessageBzip2.s2c_max_compress_level p),
      (PerMessageBzip2.s2c_max_compress_level p'),
      (PerMessageBzip2.c2s_max_compress_level p),
      (PerMessageBzip2.c2s_max_compress_level p').
    intros b b' s s' c c' E.
    apply append_inj_l in E.
    apply format_s_bool_sep_inj in E as [-> E].
    apply (append_inj_l " s2c_max_compress_level = ") in E.
    apply (format_d_sep_inj s s' ",") in E as [-> E]; [|reflexivity].
    apply (append_inj_l " c2s_max_compress_level = ") in E.
    apply (format_d_sep_inj c c' ")") in E as [-> _]; [|reflexivity].
    now repeat split.
Qed.

Lemma repr_injective_witness :
  PerMessageBzip2Offer.mk true 5 = PerMessageBzip2Offer.mk true (2 + 3).
Proof.
  apply (proj1 repr_injective). reflexivity.
Defined.

(** * The server's answer to a parsed offer *)

(** X17: a level can be requested from exactly the clients whose offer
    carried the flag.  For an Offer returned by [parse] and a level in
    1..9, constructing the Accept succeeds when
    [c2s_max_compress_level] is a key of the parsed mapping and fails with
    [UnsupportedFeatureError] when it is not; with the level 0 it
    succeeds in both cases. *)
Theorem accept_of_parsed_offer :
  forall (params : params_t) (o : PerMessageBzip2Offer.t) (r' : Z),
    PerMessageBzip2Offer.parse params = Ok o ->
    (r' = 0 ->
     PerMessageBzip2Accept.init o r' = Ok (PerMessageBzip2Accept.mk o r')) /\
    (1 <= r' <= 9 ->
     In "c2s_max_compress_level" (map fst params) ->
     PerMessageBzip2Accept.init o r' = Ok (PerMessageBzip2Accept.mk o r')) /\
    (1 <= r' <= 9 ->
     ~ In "c2s_max_compress_level" (map fst params) ->
     PerMessageBzip2Accept.init o r' = Err UnsupportedFeatureError).
Proof.
  intros params o r'. unfold PerMessageBzip2Offer.parse.
  destruct (PerMessageBzip2Offer.parse_loop params false 0) as [[a r]|] eqn:E;
    [|discriminate].
  cbn [bind fst snd]. intros H.
  apply offer_init_ok in H as [b [[= <-] [-> Hr]]].
  destruct (offer_loop_fields params _ _ _ _ E) as [Ha _].
  unfold PerMessageBzip2Accept.init.
  cbn [PerMessageBzip2Offer.acceptMaxCompressLevel].
  split; [|split].
  - now intros ->.
  - intros Hr' Hin. rewrite (proj2 (permissible_iff r') Hr').
    assert (a = true) as -> by (apply Ha; now right).
    now rewrite !andb_false_r.
  - intros Hr' Hnin. rewrite (proj2 (permissible_iff r') Hr').
    assert (a = false) as ->.
    { destruct a; [|reflexivity]. destruct (proj1 Ha eq_refl); [discriminate|].
      now elim Hnin. }
    assert ((r' =? 0) = false) as -> by lia. reflexivity.
Qed.

Lemma accept_of_parsed_offer_witness :
  PerMessageBzip2Accept.init (PerMessageBzip2Offer.mk false 2) 5
  = Err UnsupportedFeatureError /\
  PerMessageBzip2Accept.init (PerMessageBzip2Offer.mk true 0) 5
  = Ok (PerMessageBzip2Accept.mk (PerMessageBzip2Offer.mk true 0) 5).
Proof.
  destruct (accept_of_parsed_offer [("s2c_max_compress_level", [VStr "2"])]
              (PerMessageBzip2Offer.mk false 2) 5 eq_refl) as [_ [_ H1]].
  destruct (accept_of_parsed_offer [("c2s_max_compress_level", [VBool true])]
              (PerMessageBzip2Offer.mk true 0) 5 eq_refl) as [_ [H2 _]].
  split.
  - apply H1; [lia|]. cbn. intros [H|[]]. discriminate.
  - apply H2; [lia|]. now left.
Defined.
